(** * The OAuth flow sequencer of the inspector client

    A shallow embedding of [client/src/lib/oauth-state-machine.ts]: the
    transition table [oauthTransitions] (one guard and one action per
    [OAuthStep]) and the driver [OAuthStateMachine.executeStep].

    The TypeScript code is asynchronous and effectful.  Its effects are
    - calls of the caller-supplied [updateState] callback,
    - reads and writes on the credential provider object,
    - calls of the OAuth client library (network), and
    - JavaScript exceptions.
    They are modelled by a state-and-exception monad over a [World] that
    holds the provider object and the log of the calls made so far.  A
    thrown exception keeps every effect that happened before it, as in
    JavaScript. *)

From Stdlib Require Import List NArith Bool String Ascii.
Import ListNotations.

Set Implicit Arguments.

(** ** JavaScript strings *)

(** A JavaScript string is a sequence of UTF-16 code units. *)
Definition code_unit := N.
Definition jsstring := list code_unit.

(** Embedding of the (ASCII) string literals of the source. *)
Definition lit (s : string) : jsstring :=
  map N_of_ascii (list_ascii_of_string s).

Definition jsstring_eqb (a b : jsstring) : bool :=
  if list_eq_dec N.eq_dec a b then true else false.

(** [ToBoolean] on a string: only the empty string is falsy. *)
Definition string_truthy (s : jsstring) : bool :=
  match s with [] => false | _ :: _ => true end.

(** The code units removed by [String.prototype.trim]: ECMAScript
    WhiteSpace (TAB, VT, FF, ZWNBSP and the Unicode space separators)
    and LineTerminator (LF, CR, LS, PS). *)
Definition isWhiteSpace (c : code_unit) : bool :=
  ((c =? 9) || (c =? 10) || (c =? 11) || (c =? 12) || (c =? 13) ||
   (c =? 32) || (c =? 160) || (c =? 5760) ||
   ((8192 <=? c) && (c <=? 8202)) ||
   (c =? 8232) || (c =? 8233) || (c =? 8239) || (c =? 8287) ||
   (c =? 12288) || (c =? 65279))%N.

Fixpoint trimStart (s : jsstring) : jsstring :=
  match s with
  | [] => []
  | c :: r => if isWhiteSpace c then trimStart r else s
  end.

Definition trimEnd (s : jsstring) : jsstring := rev (trimStart (rev s)).

Definition trim (s : jsstring) : jsstring := trimEnd (trimStart s).

(** [Array.prototype.join] on an array of strings. *)
Fixpoint join (sep : jsstring) (l : list jsstring) : jsstring :=
  match l with
  | [] => []
  | [x] => x
  | x :: r => x ++ sep ++ join sep r
  end.

(** ** Values exchanged with the OAuth client library *)

(** A [URL] object, identified by its serialisation. *)
Record URL := { href : jsstring }.

(** [OAuthProtectedResourceMetadata]: the fields the sequencer reads. *)
Record OAuthProtectedResourceMetadata := {
  prm_resource : jsstring;
  prm_authorization_servers : option (list jsstring);
  prm_scopes_supported : option (list jsstring)
}.

(** [OAuthMetadata], as produced by [OAuthMetadataSchema.parseAsync]. *)
Record OAuthMetadata := {
  issuer : jsstring;
  authorization_endpoint : jsstring;
  token_endpoint : jsstring;
  scopes_supported : option (list jsstring)
}.

(** [OAuthClientMetadata]: the registration template. *)
Record OAuthClientMetadata := {
  redirect_uris : list jsstring;
  client_name : option jsstring;
  scope : option jsstring
}.

Record OAuthClientInformation := {
  client_id : jsstring;
  client_secret : option jsstring
}.

Record OAuthTokens := {
  access_token : jsstring;
  token_type : jsstring;
  refresh_token : option jsstring
}.

(** ** Exceptions *)

Record Error := { name : jsstring; message : jsstring }.

(** [new Error(msg)] *)
Definition new_Error (msg : jsstring) : Error :=
  {| name := lit "Error"; message := msg |}.

(** What a [throw] carries: an [Error] instance, or any other value, of
    which only [String(value)] is ever observed. *)
Inductive thrown :=
| ThrownError (e : Error)
| ThrownValue (asString : jsstring).

(** Reading a property of [null] or [undefined]. *)
Definition TypeError_null (prop : jsstring) : thrown :=
  ThrownError
    {| name := lit "TypeError";
       message := lit "Cannot read properties of null (reading '"
                    ++ prop ++ lit "')" |}.

(** The completion of a call: it returns a value or throws. *)
Inductive completion (A : Type) :=
| Returned (a : A)
| Threw (t : thrown).
Arguments Returned {A} a.
Arguments Threw {A} t.

Definition raised {A} (c : completion A) : bool :=
  match c with Returned _ => false | Threw _ => true end.

(** ** Flow state *)

Inductive OAuthStep :=
| prm_discovery
| oauth_metadata_discovery
| client_registration
| authorization_redirect
| authorization_code
| token_request
| complete.

Definition OAuthStep_eq_dec (a b : OAuthStep) : {a = b} + {a <> b}.
Proof. decide equality. Defined.

(** The step as the string it is in the source. *)
Definition step_name (s : OAuthStep) : jsstring :=
  match s with
  | prm_discovery => lit "prm_discovery"
  | oauth_metadata_discovery => lit "oauth_metadata_discovery"
  | client_registration => lit "client_registration"
  | authorization_redirect => lit "authorization_redirect"
  | authorization_code => lit "authorization_code"
  | token_request => lit "token_request"
  | complete => lit "complete"
  end.

(** [state.resource] is a [URL], or the string a [URL] became when the
    state went through serialisation ([token_request] handles both). *)
Inductive ResourceRef :=
| ResourceURL (u : URL)
| ResourceString (s : jsstring).

(** Modelled from the spec: [AuthDebuggerState] is declared in
    [auth-types.ts], which is not among the sources; the fields are those
    of the Flow State of the spec's data model.  [None] stands for [null],
    [undefined] or an absent key. *)
Record AuthDebuggerState := {
  oauthStep : OAuthStep;
  resourceMetadata : option OAuthProtectedResourceMetadata;
  resourceMetadataError : option Error;
  resource : option ResourceRef;
  authServerUrl : option URL;
  oauthMetadata : option OAuthMetadata;
  oauthClientInfo : option OAuthClientInformation;
  authorizationUrl : option URL;
  authorizationCode : option jsstring;
  validationError : option jsstring;
  oauthTokens : option OAuthTokens
}.

(** [Partial<AuthDebuggerState>], the argument of [updateState]: the outer
    [option] says whether the key is present in the object literal, the
    inner one is the (nullable) value written. *)
Record StateUpdate := {
  upd_oauthStep : option OAuthStep;
  upd_resourceMetadata : option (option OAuthProtectedResourceMetadata);
  upd_resourceMetadataError : option (option Error);
  upd_resource : option (option ResourceRef);
  upd_authServerUrl : option (option URL);
  upd_oauthMetadata : option (option OAuthMetadata);
  upd_oauthClientInfo : option (option OAuthClientInformation);
  upd_authorizationUrl : option (option URL);
  upd_authorizationCode : option (option jsstring);
  upd_validationError : option (option jsstring);
  upd_oauthTokens : option (option OAuthTokens)
}.

Definition overwrite {A} (old : A) (new : option A) : A :=
  match new with Some v => v | None => old end.

(** Modelled from the spec: the [updateState] callback is supplied by the
    caller, which is not among the sources; it reports the updated Flow
    State, i.e. the keys present in the update replace those of the
    state ([{ ...state, ...updates }]). *)
Definition applyUpdate (s : AuthDebuggerState) (u : StateUpdate)
  : AuthDebuggerState :=
  {| oauthStep := overwrite (oauthStep s) (upd_oauthStep u);
     resourceMetadata :=
       overwrite (resourceMetadata s) (upd_resourceMetadata u);
     resourceMetadataError :=
       overwrite (resourceMetadataError s) (upd_resourceMetadataError u);
     resource := overwrite (resource s) (upd_resource u);
     authServerUrl := overwrite (authServerUrl s) (upd_authServerUrl u);
     oauthMetadata := overwrite (oauthMetadata s) (upd_oauthMetadata u);
     oauthClientInfo :=
       overwrite (oauthClientInfo s) (upd_oauthClientInfo u);
     authorizationUrl :=
       overwrite (authorizationUrl s) (upd_authorizationUrl u);
     authorizationCode :=
       overwrite (authorizationCode s) (upd_authorizationCode u);
     validationError :=
       overwrite (validationError s) (upd_validationError u);
     oauthTokens := overwrite (oauthTokens s) (upd_oauthTokens u) |}.

(** ** The credential provider *)

(** Modelled from the spec: [DebugInspectorOAuthClientProvider] lives in
    [auth.ts], which is not among the sources.  The provider bound to a
    server holds the four persisted items (server metadata, client
    information, code verifier, tokens), the redirect target, and the
    [clientMetadata] template object that [client_registration] mutates
    in place. *)
Record Provider := {
  clientMetadata : OAuthClientMetadata;
  redirectUrl : jsstring;
  stored_serverMetadata : option OAuthMetadata;
  stored_clientInformation : option OAuthClientInformation;
  stored_codeVerifier : option jsstring;
  stored_tokens : option OAuthTokens
}.

(** Arguments of [startAuthorization] and [exchangeAuthorization]. *)
Record StartAuthorizationOptions := {
  sa_metadata : option OAuthMetadata;
  sa_clientInformation : option OAuthClientInformation;
  sa_redirectUrl : jsstring;
  sa_scope : option jsstring;
  sa_state : jsstring;
  sa_resource : option ResourceRef
}.

Record ExchangeAuthorizationOptions := {
  ex_metadata : option OAuthMetadata;
  ex_clientInformation : option OAuthClientInformation;
  ex_authorizationCode : option jsstring;
  ex_codeVerifier : option jsstring;
  ex_redirectUri : jsstring;
  ex_resource : option URL
}.

(** ** The world: provider object and call log *)

(** The observable calls, in the order they are made. *)
Inductive Call :=
| call_discoverOAuthProtectedResourceMetadata (serverUrl : jsstring)
| call_selectResourceURL (serverUrl : jsstring)
    (md : option OAuthProtectedResourceMetadata)
| call_discoverAuthorizationServerMetadata (u : option URL)
| call_parseAsync
| call_registerClient (serverUrl : jsstring)
    (md : option OAuthMetadata) (cm : OAuthClientMetadata)
| call_discoverScopes (serverUrl : jsstring)
    (md : option OAuthProtectedResourceMetadata)
| call_startAuthorization (serverUrl : jsstring)
    (o : StartAuthorizationOptions)
| call_exchangeAuthorization (serverUrl : jsstring)
    (o : ExchangeAuthorizationOptions)
| call_saveServerMetadata (m : OAuthMetadata)
| call_saveClientInformation (i : OAuthClientInformation)
| call_saveCodeVerifier (v : jsstring)
| call_saveTokens (t : OAuthTokens)
| call_updateState (u : StateUpdate).

Record World := {
  provider : Provider;
  calls : list Call
}.

(** The updates passed to [updateState], oldest first. *)
Fixpoint updates_of (l : list Call) : list StateUpdate :=
  match l with
  | [] => []
  | call_updateState u :: r => u :: updates_of r
  | _ :: r => updates_of r
  end.

(** The Flow State the caller holds after the logged updates. *)
Definition reported (s : AuthDebuggerState) (w : World) : AuthDebuggerState :=
  fold_left applyUpdate (updates_of (calls w)) s.

(** ** The monad of asynchronous, throwing, effectful code *)

Definition M (A : Type) : Type := World -> completion A * World.

Definition ret {A} (a : A) : M A := fun w => (Returned a, w).

Definition bind {A B} (m : M A) (k : A -> M B) : M B :=
  fun w =>
    match m w with
    | (Returned a, w') => k a w'
    | (Threw t, w') => (Threw t, w')
    end.

Definition throw {A} (t : thrown) : M A := fun w => (Threw t, w).

(** [throw new Error(msg)] *)
Definition throw_new_Error {A} (msg : jsstring) : M A :=
  throw (ThrownError (new_Error msg)).

(** [try { m } catch (e) { h e }] *)
Definition try_catch {A} (m : M A) (h : thrown -> M A) : M A :=
  fun w =>
    match m w with
    | (Returned a, w') => (Returned a, w')
    | (Threw t, w') => h t w'
    end.

Definition get_provider : M Provider := fun w => (Returned (provider w), w).

Definition modify_provider (f : Provider -> Provider) : M unit :=
  fun w => (Returned tt, {| provider := f (provider w); calls := calls w |}).

Definition log (c : Call) : M unit :=
  fun w => (Returned tt, {| provider := provider w; calls := calls w ++ [c] |}).

(** Settling of an awaited library call with completion [c]. *)
Definition settle {A} (c : completion A) : M A := fun w => (c, w).

(** [await f(args)]: the call is made, then returns or throws. *)
Definition await {A} (c : Call) (r : completion A) : M A :=
  bind (log c) (fun _ => settle r).

Declare Scope js_scope.
Delimit Scope js_scope with js.
Notation "x <- m ;; k" := (bind m (fun x => k))
  (at level 61, m at next level, right associativity) : js_scope.
Notation "m ;; k" := (bind m (fun _ => k))
  (at level 61, right associativity) : js_scope.
Open Scope js_scope.

(** ** Collaborators *)

(** The functions the sequencer imports from outside this file: the
    OAuth client library ([@modelcontextprotocol/sdk]), the helpers
    [discoverScopes] and [generateOAuthState], and the platform's [URL]
    constructor.  Each is taken as it is seen from the call site: its
    completion for the arguments it receives.  An argument written with a
    non-null assertion in the source ([x!]) is passed as it is at run
    time, [None] included. *)
Record Collaborators := {
  (** what [discoverAuthorizationServerMetadata] resolves to, before
      schema validation *)
  AuthorizationServerMetadata : Type;
  discoverOAuthProtectedResourceMetadata :
    jsstring -> completion OAuthProtectedResourceMetadata;
  selectResourceURL :
    jsstring -> Provider -> option OAuthProtectedResourceMetadata ->
    completion (option URL);
  (** [new URL(url)] and [new URL(url, base)] *)
  URL_new : jsstring -> option jsstring -> completion URL;
  discoverAuthorizationServerMetadata :
    option URL -> completion (option AuthorizationServerMetadata);
  OAuthMetadataSchema_parseAsync :
    AuthorizationServerMetadata -> completion OAuthMetadata;
  registerClient :
    jsstring -> option OAuthMetadata -> OAuthClientMetadata ->
    completion OAuthClientInformation;
  discoverScopes :
    jsstring -> option OAuthProtectedResourceMetadata ->
    completion (option jsstring);
  generateOAuthState : jsstring;
  startAuthorization :
    jsstring -> StartAuthorizationOptions -> completion (URL * jsstring);
  exchangeAuthorization :
    jsstring -> ExchangeAuthorizationOptions -> completion OAuthTokens
}.

(** ** Provider methods and [updateState] *)

Definition set_clientMetadata (m : OAuthClientMetadata) (p : Provider) :=
  {| clientMetadata := m;
     redirectUrl := redirectUrl p;
     stored_serverMetadata := stored_serverMetadata p;
     stored_clientInformation := stored_clientInformation p;
     stored_codeVerifier := stored_codeVerifier p;
     stored_tokens := stored_tokens p |}.

Definition set_serverMetadata (m : OAuthMetadata) (p : Provider) :=
  {| clientMetadata := clientMetadata p;
     redirectUrl := redirectUrl p;
     stored_serverMetadata := Some m;
     stored_clientInformation := stored_clientInformation p;
     stored_codeVerifier := stored_codeVerifier p;
     stored_tokens := stored_tokens p |}.

Definition set_clientInformation (i : OAuthClientInformation) (p : Provider) :=
  {| clientMetadata := clientMetadata p;
     redirectUrl := redirectUrl p;
     stored_serverMetadata := stored_serverMetadata p;
     stored_clientInformation := Some i;
     stored_codeVerifier := stored_codeVerifier p;
     stored_tokens := stored_tokens p |}.

Definition set_codeVerifier (v : jsstring) (p : Provider) :=
  {| clientMetadata := clientMetadata p;
     redirectUrl := redirectUrl p;
     stored_serverMetadata := stored_serverMetadata p;
     stored_clientInformation := stored_clientInformation p;
     stored_codeVerifier := Some v;
     stored_tokens := stored_tokens p |}.

Definition set_tokens (t : OAuthTokens) (p : Provider) :=
  {| clientMetadata := clientMetadata p;
     redirectUrl := redirectUrl p;
     stored_serverMetadata := stored_serverMetadata p;
     stored_clientInformation := stored_clientInformation p;
     stored_codeVerifier := stored_codeVerifier p;
     stored_tokens := Some t |}.

(** [clientMetadata.scope = s], on the object the provider holds. *)
Definition assign_scope (s : jsstring) (m : OAuthClientMetadata) :=
  {| redirect_uris := redirect_uris m;
     client_name := client_name m;
     scope := Some s |}.

Module provider_method.

Definition getServerMetadata : M (option OAuthMetadata) :=
  p <- get_provider ;; ret (stored_serverMetadata p).

Definition clientInformation : M (option OAuthClientInformation) :=
  p <- get_provider ;; ret (stored_clientInformation p).

Definition codeVerifier : M (option jsstring) :=
  p <- get_provider ;; ret (stored_codeVerifier p).

Definition saveServerMetadata (m : OAuthMetadata) : M unit :=
  log (call_saveServerMetadata m) ;;
  modify_provider (set_serverMetadata m).

Definition saveClientInformation (i : OAuthClientInformation) : M unit :=
  log (call_saveClientInformation i) ;;
  modify_provider (set_clientInformation i).

Definition saveCodeVerifier (v : jsstring) : M unit :=
  log (call_saveCodeVerifier v) ;;
  modify_provider (set_codeVerifier v).

Definition saveTokens (t : OAuthTokens) : M unit :=
  log (call_saveTokens t) ;;
  modify_provider (set_tokens t).

End provider_method.

(** [context.updateState(updates)] *)
Definition updateState (u : StateUpdate) : M unit := log (call_updateState u).

(** ** The transition table *)

(** [StateMachineContext].  Its [provider] and [updateState] members are
    the provider object and the call log of the [World]. *)
Record StateMachineContext := {
  state : AuthDebuggerState;
  serverUrl : jsstring
}.

Definition is_set {A} (o : option A) : bool :=
  match o with Some _ => true | None => false end.

(** [!!s] for a string that may be absent. *)
Definition code_truthy (o : option jsstring) : bool :=
  match o with Some s => string_truthy s | None => false end.

(** [!!r] for [state.resource]. *)
Definition resource_truthy (r : ResourceRef) : bool :=
  match r with
  | ResourceURL _ => true
  | ResourceString s => string_truthy s
  end.

Section Transitions.

Variable C : Collaborators.

Definition new_URL (url : jsstring) (base : option jsstring) : M URL :=
  settle (URL_new C url base).

(** [e instanceof Error ? e : new Error(String(e))] *)
Definition as_Error (e : thrown) : Error :=
  match e with
  | ThrownError err => err
  | ThrownValue s => new_Error s
  end.

(** *** prm_discovery *)

Definition prm_discovery_execute (context : StateMachineContext) : M unit :=
  fetched <-
    try_catch
      (m <- await
              (call_discoverOAuthProtectedResourceMetadata
                 (serverUrl context))
              (discoverOAuthProtectedResourceMetadata C
                 (serverUrl context)) ;;
       ret (Some m, None))
      (fun e => ret (None, Some (as_Error e))) ;;
  let resourceMetadata := fst fetched in
  let resourceMetadataError := snd fetched in
  p <- get_provider ;;
  resource <- await
    (call_selectResourceURL (serverUrl context) resourceMetadata)
    (selectResourceURL C (serverUrl context) p resourceMetadata) ;;
  root <- new_URL (lit "/") (Some (serverUrl context)) ;;
  authServerUrl <-
    match resourceMetadata with
    | Some {| prm_authorization_servers := Some (first :: _) |} =>
        new_URL first None
    | _ => ret root
    end ;;
  updateState
    {| upd_oauthStep := Some oauth_metadata_discovery;
       upd_resourceMetadata := Some resourceMetadata;
       upd_resourceMetadataError := Some resourceMetadataError;
       upd_resource := Some (option_map ResourceURL resource);
       upd_authServerUrl := Some (Some authServerUrl);
       upd_oauthMetadata := None;
       upd_oauthClientInfo := None;
       upd_authorizationUrl := None;
       upd_authorizationCode := None;
       upd_validationError := None;
       upd_oauthTokens := None |}.

(** *** oauth_metadata_discovery *)

Definition oauth_metadata_discovery_execute
    (context : StateMachineContext) : M unit :=
  let authServerUrl := authServerUrl (state context) in
  metadata <- await
    (call_discoverAuthorizationServerMetadata authServerUrl)
    (discoverAuthorizationServerMetadata C authServerUrl) ;;
  match metadata with
  | None => throw_new_Error (lit "Failed to discover OAuth metadata")
  | Some metadata =>
      parsedMetadata <- await call_parseAsync
        (OAuthMetadataSchema_parseAsync C metadata) ;;
      provider_method.saveServerMetadata parsedMetadata ;;
      updateState
        {| upd_oauthStep := Some client_registration;
           upd_resourceMetadata := None;
           upd_resourceMetadataError := None;
           upd_resource := None;
           upd_authServerUrl := None;
           upd_oauthMetadata := Some (Some parsedMetadata);
           upd_oauthClientInfo := None;
           upd_authorizationUrl := None;
           upd_authorizationCode := None;
           upd_validationError := None;
           upd_oauthTokens := None |}
  end.

(** *** client_registration *)

(** [state.resourceMetadata?.scopes_supported || metadata.scopes_supported]:
    an array is truthy even when empty, so the right operand is read
    exactly when the left one is undefined; reading it on a null
    [metadata] throws. *)
Definition scopesSupported_of (s : AuthDebuggerState)
  : completion (option (list jsstring)) :=
  match resourceMetadata s with
  | Some {| prm_scopes_supported := Some l |} => Returned (Some l)
  | _ =>
      match oauthMetadata s with
      | Some metadata => Returned (scopes_supported metadata)
      | None => Threw (TypeError_null (lit "scopes_supported"))
      end
  end.

Definition client_registration_execute
    (context : StateMachineContext) : M unit :=
  let metadata := oauthMetadata (state context) in
  (* [clientMetadata] aliases the object held by the provider *)
  scopesSupported <- settle (scopesSupported_of (state context)) ;;
  match scopesSupported with
  | Some l =>
      modify_provider
        (fun p =>
           set_clientMetadata
             (assign_scope (join (lit " ") l) (clientMetadata p)) p)
  | None => ret tt
  end ;;
  fullInformation <- provider_method.clientInformation ;;
  fullInformation <-
    match fullInformation with
    | Some i => ret i
    | None =>
        p <- get_provider ;;
        i <- await
          (call_registerClient (serverUrl context) metadata
             (clientMetadata p))
          (registerClient C (serverUrl context) metadata
             (clientMetadata p)) ;;
        provider_method.saveClientInformation i ;;
        ret i
    end ;;
  updateState
    {| upd_oauthStep := Some authorization_redirect;
       upd_resourceMetadata := None;
       upd_resourceMetadataError := None;
       upd_resource := None;
       upd_authServerUrl := None;
       upd_oauthMetadata := None;
       upd_oauthClientInfo := Some (Some fullInformation);
       upd_authorizationUrl := None;
       upd_authorizationCode := None;
       upd_validationError := None;
       upd_oauthTokens := None |}.

(** *** authorization_redirect *)

Definition authorization_redirect_execute
    (context : StateMachineContext) : M unit :=
  let metadata := oauthMetadata (state context) in
  let clientInformation := oauthClientInfo (state context) in
  scope <- await
    (call_discoverScopes (serverUrl context)
       (resourceMetadata (state context)))
    (discoverScopes C (serverUrl context)
       (resourceMetadata (state context))) ;;
  p <- get_provider ;;
  let options :=
    {| sa_metadata := metadata;
       sa_clientInformation := clientInformation;
       sa_redirectUrl := redirectUrl p;
       sa_scope := scope;
       sa_state := generateOAuthState C;
       sa_resource := resource (state context) |} in
  started <- await
    (call_startAuthorization (serverUrl context) options)
    (startAuthorization C (serverUrl context) options) ;;
  let authorizationUrl := fst started in
  let codeVerifier := snd started in
  provider_method.saveCodeVerifier codeVerifier ;;
  updateState
    {| upd_oauthStep := Some authorization_code;
       upd_resourceMetadata := None;
       upd_resourceMetadataError := None;
       upd_resource := None;
       upd_authServerUrl := None;
       upd_oauthMetadata := None;
       upd_oauthClientInfo := None;
       upd_authorizationUrl := Some (Some authorizationUrl);
       upd_authorizationCode := None;
       upd_validationError := None;
       upd_oauthTokens := None |}.

(** *** authorization_code *)

(** [!code || code.trim() === ""] *)
Definition code_is_blank (code : option jsstring) : bool :=
  negb (code_truthy code) ||
  match code with
  | Some s => jsstring_eqb (trim s) []
  | None => true
  end.

Definition authorization_code_execute
    (context : StateMachineContext) : M unit :=
  if code_is_blank (authorizationCode (state context)) then
    updateState
      {| upd_oauthStep := None;
         upd_resourceMetadata := None;
         upd_resourceMetadataError := None;
         upd_resource := None;
         upd_authServerUrl := None;
         upd_oauthMetadata := None;
         upd_oauthClientInfo := None;
         upd_authorizationUrl := None;
         upd_authorizationCode := None;
         upd_validationError :=
           Some (Some (lit "You need to provide an authorization code"));
         upd_oauthTokens := None |} ;;
    (* Don't advance if no code *)
    throw_new_Error (lit "Authorization code required")
  else
    updateState
      {| upd_oauthStep := Some token_request;
         upd_resourceMetadata := None;
         upd_resourceMetadataError := None;
         upd_resource := None;
         upd_authServerUrl := None;
         upd_oauthMetadata := None;
         upd_oauthClientInfo := None;
         upd_authorizationUrl := None;
         upd_authorizationCode := None;
         upd_validationError := Some None;
         upd_oauthTokens := None |}.

(** *** token_request *)

Definition token_request_canTransition
    (context : StateMachineContext) : M bool :=
  if code_truthy (authorizationCode (state context)) then
    md <- provider_method.getServerMetadata ;;
    if is_set md then
      info <- provider_method.clientInformation ;;
      ret (is_set info)
    else ret false
  else ret false.

(** [r ? (r instanceof URL ? r : new URL(r)) : undefined] *)
Definition resource_as_URL (r : option ResourceRef)
  : completion (option URL) :=
  match r with
  | Some r =>
      if resource_truthy r then
        match r with
        | ResourceURL u => Returned (Some u)
        | ResourceString s =>
            match URL_new C s None with
            | Returned u => Returned (Some u)
            | Threw t => Threw t
            end
        end
      else Returned None
  | None => Returned None
  end.

Definition token_request_execute
    (context : StateMachineContext) : M unit :=
  codeVerifier <- provider_method.codeVerifier ;;
  metadata <- provider_method.getServerMetadata ;;
  clientInformation <- provider_method.clientInformation ;;
  p <- get_provider ;;
  resource <- settle (resource_as_URL (resource (state context))) ;;
  let options :=
    {| ex_metadata := metadata;
       ex_clientInformation := clientInformation;
       ex_authorizationCode := authorizationCode (state context);
       ex_codeVerifier := codeVerifier;
       ex_redirectUri := redirectUrl p;
       ex_resource := resource |} in
  tokens <- await
    (call_exchangeAuthorization (serverUrl context) options)
    (exchangeAuthorization C (serverUrl context) options) ;;
  provider_method.saveTokens tokens ;;
  updateState
    {| upd_oauthStep := Some complete;
       upd_resourceMetadata := None;
       upd_resourceMetadataError := None;
       upd_resource := None;
       upd_authServerUrl := None;
       upd_oauthMetadata := None;
       upd_oauthClientInfo := None;
       upd_authorizationUrl := None;
       upd_authorizationCode := None;
       upd_validationError := None;
       upd_oauthTokens := Some (Some tokens) |}.

(** *** The table *)

Record StateTransition := {
  canTransition : StateMachineContext -> M bool;
  execute : StateMachineContext -> M unit
}.

Definition oauthTransitions (step : OAuthStep) : StateTransition :=
  match step with
  | prm_discovery =>
      {| canTransition := fun _ => ret true;
         execute := prm_discovery_execute |}
  | oauth_metadata_discovery =>
      {| canTransition := fun context =>
           ret (is_set (authServerUrl (state context)));
         execute := oauth_metadata_discovery_execute |}
  | client_registration =>
      {| canTransition := fun context =>
           ret (is_set (oauthMetadata (state context)));
         execute := client_registration_execute |}
  | authorization_redirect =>
      {| canTransition := fun context =>
           ret (is_set (oauthMetadata (state context)) &&
                is_set (oauthClientInfo (state context)));
         execute := authorization_redirect_execute |}
  | authorization_code =>
      {| canTransition := fun _ => ret true;
         execute := authorization_code_execute |}
  | token_request =>
      {| canTransition := token_request_canTransition;
         execute := token_request_execute |}
  | complete =>
      {| canTransition := fun _ => ret false;
         execute := fun _ => ret tt (* No-op for complete state *) |}
  end.

(** ** The sequencer *)

(** [OAuthStateMachine.executeStep], for a machine constructed with
    [serverUrl].  The provider built by
    [new DebugInspectorOAuthClientProvider(serverUrl)] is the provider
    of the world the step is run in. *)
Definition executeStep (serverUrl : jsstring) (state : AuthDebuggerState)
  : M unit :=
  let context := {| state := state; serverUrl := serverUrl |} in
  let transition := oauthTransitions (oauthStep state) in
  ok <- canTransition transition context ;;
  if negb ok then
    throw_new_Error
      (lit "Cannot transition from " ++ step_name (oauthStep state))
  else
    execute transition context.

End Transitions.

(** ** Vocabulary of the properties *)

(** The world after further calls [l] with the provider untouched. *)
Definition logged (w : World) (l : list Call) : World :=
  {| provider := provider w; calls := calls w ++ l |}.

(** An authorization code that is absent, empty, or made of white space
    only. *)
Definition blank (code : option jsstring) : Prop :=
  match code with
  | None => True
  | Some s => Forall (fun c => isWhiteSpace c = true) s
  end.

(** The error of a guard violation at [step]. *)
Definition guard_violation (step : OAuthStep) : thrown :=
  ThrownError (new_Error (lit "Cannot transition from " ++ step_name step)).

(** The update that carries only a [validationError]. *)
Definition only_validationError (v : option jsstring) : StateUpdate :=
  {| upd_oauthStep := None;
     upd_resourceMetadata := None;
     upd_resourceMetadataError := None;
     upd_resource := None;
     upd_authServerUrl := None;
     upd_oauthMetadata := None;
     upd_oauthClientInfo := None;
     upd_authorizationUrl := None;
     upd_authorizationCode := None;
     upd_validationError := Some v;
     upd_oauthTokens := None |}.

(** The precondition fields a guard may read, in the Flow State or in the
    provider. *)
Inductive Field :=
| field_authServerUrl
| field_oauthMetadata
| field_oauthClientInfo
| field_authorizationCode
| field_provider_serverMetadata
| field_provider_clientInformation.

(** The declared precondition fields of each step. *)
Definition declared (step : OAuthStep) : list Field :=
  match step with
  | prm_discovery => []
  | oauth_metadata_discovery => [field_authServerUrl]
  | client_registration => [field_oauthMetadata]
  | authorization_redirect => [field_oauthMetadata; field_oauthClientInfo]
  | authorization_code => []
  | token_request =>
      [field_authorizationCode; field_provider_serverMetadata;
       field_provider_clientInformation]
  | complete => []
  end.

(** Two contexts (with their provider) hold the same value in a field. *)
Definition agree (f : Field)
    (c1 : StateMachineContext) (w1 : World)
    (c2 : StateMachineContext) (w2 : World) : Prop :=
  match f with
  | field_authServerUrl =>
      authServerUrl (state c1) = authServerUrl (state c2)
  | field_oauthMetadata =>
      oauthMetadata (state c1) = oauthMetadata (state c2)
  | field_oauthClientInfo =>
      oauthClientInfo (state c1) = oauthClientInfo (state c2)
  | field_authorizationCode =>
      authorizationCode (state c1) = authorizationCode (state c2)
  | field_provider_serverMetadata =>
      stored_serverMetadata (provider w1) = stored_serverMetadata (provider w2)
  | field_provider_clientInformation =>
      stored_clientInformation (provider w1) =
      stored_clientInformation (provider w2)
  end.

(** A field holds a truthy value. *)
Definition truthy (f : Field) (c : StateMachineContext) (w : World) : bool :=
  match f with
  | field_authServerUrl => is_set (authServerUrl (state c))
  | field_oauthMetadata => is_set (oauthMetadata (state c))
  | field_oauthClientInfo => is_set (oauthClientInfo (state c))
  | field_authorizationCode => code_truthy (authorizationCode (state c))
  | field_provider_serverMetadata => is_set (stored_serverMetadata (provider w))
  | field_provider_clientInformation =>
      is_set (stored_clientInformation (provider w))
  end.

(** What [prm_discovery] keeps of the metadata fetch: the metadata when
    the fetch returned, the error when it threw. *)
Definition fetched_metadata (C : Collaborators) (serverUrl : jsstring)
  : option OAuthProtectedResourceMetadata * option Error :=
  match discoverOAuthProtectedResourceMetadata C serverUrl with
  | Returned m => (Some m, None)
  | Threw t => (None, Some (as_Error t))
  end.

(** The first declared authorization server, when there is one. *)
Definition first_authorization_server
    (md : option OAuthProtectedResourceMetadata) : option jsstring :=
  match md with
  | Some m =>
      match prm_authorization_servers m with
      | Some (first :: _) => Some first
      | _ => None
      end
  | None => None
  end.

(** The update [prm_discovery] issues. *)
Definition prm_update (md : option OAuthProtectedResourceMetadata)
    (err : option Error) (res : option URL) (auth : URL) : StateUpdate :=
  {| upd_oauthStep := Some oauth_metadata_discovery;
     upd_resourceMetadata := Some md;
     upd_resourceMetadataError := Some err;
     upd_resource := Some (option_map ResourceURL res);
     upd_authServerUrl := Some (Some auth);
     upd_oauthMetadata := None;
     upd_oauthClientInfo := None;
     upd_authorizationUrl := None;
     upd_authorizationCode := None;
     upd_validationError := None;
     upd_oauthTokens := None |}.

(** The update by which the caller supplies the authorization code. *)
Definition upd_authorizationCode_only (code : jsstring) : StateUpdate :=
  {| upd_oauthStep := None;
     upd_resourceMetadata := None;
     upd_resourceMetadataError := None;
     upd_resource := None;
     upd_authServerUrl := None;
     upd_oauthMetadata := None;
     upd_oauthClientInfo := None;
     upd_authorizationUrl := None;
     upd_authorizationCode := Some (Some code);
     upd_validationError := None;
     upd_oauthTokens := None |}.

(** The update [authorization_code] issues for a code it accepts. *)
Definition code_accepted : StateUpdate :=
  {| upd_oauthStep := Some token_request;
     upd_resourceMetadata := None;
     upd_resourceMetadataError := None;
     upd_resource := None;
     upd_authServerUrl := None;
     upd_oauthMetadata := None;
     upd_oauthClientInfo := None;
     upd_authorizationUrl := None;
     upd_authorizationCode := None;
     upd_validationError := Some None;
     upd_oauthTokens := None |}.

(** The update [oauth_metadata_discovery] issues. *)
Definition metadata_update (m : OAuthMetadata) : StateUpdate :=
  {| upd_oauthStep := Some client_registration;
     upd_resourceMetadata := None;
     upd_resourceMetadataError := None;
     upd_resource := None;
     upd_authServerUrl := None;
     upd_oauthMetadata := Some (Some m);
     upd_oauthClientInfo := None;
     upd_authorizationUrl := None;
     upd_authorizationCode := None;
     upd_validationError := None;
     upd_oauthTokens := None |}.

(** The update [client_registration] issues. *)
Definition client_update (i : OAuthClientInformation) : StateUpdate :=
  {| upd_oauthStep := Some authorization_redirect;
     upd_resourceMetadata := None;
     upd_resourceMetadataError := None;
     upd_resource := None;
     upd_authServerUrl := None;
     upd_oauthMetadata := None;
     upd_oauthClientInfo := Some (Some i);
     upd_authorizationUrl := None;
     upd_authorizationCode := None;
     upd_validationError := None;
     upd_oauthTokens := None |}.

(** The update [authorization_redirect] issues. *)
Definition redirect_update (u : URL) : StateUpdate :=
  {| upd_oauthStep := Some authorization_code;
     upd_resourceMetadata := None;
     upd_resourceMetadataError := None;
     upd_resource := None;
     upd_authServerUrl := None;
     upd_oauthMetadata := None;
     upd_oauthClientInfo := None;
     upd_authorizationUrl := Some (Some u);
     upd_authorizationCode := None;
     upd_validationError := None;
     upd_oauthTokens := None |}.

(** The update [token_request] issues. *)
Definition tokens_update (t : OAuthTokens) : StateUpdate :=
  {| upd_oauthStep := Some complete;
     upd_resourceMetadata := None;
     upd_resourceMetadataError := None;
     upd_resource := None;
     upd_authServerUrl := None;
     upd_oauthMetadata := None;
     upd_oauthClientInfo := None;
     upd_authorizationUrl := None;
     upd_authorizationCode := None;
     upd_validationError := None;
     upd_oauthTokens := Some (Some t) |}.

(** What [authorization_redirect] passes to [startAuthorization]. *)
Definition redirect_options (C : Collaborators) (s : AuthDebuggerState)
    (p : Provider) (scope : option jsstring) : StartAuthorizationOptions :=
  {| sa_metadata := oauthMetadata s;
     sa_clientInformation := oauthClientInfo s;
     sa_redirectUrl := redirectUrl p;
     sa_scope := scope;
     sa_state := generateOAuthState C;
     sa_resource := resource s |}.

(** What [token_request] passes to [exchangeAuthorization]. *)
Definition exchange_options (s : AuthDebuggerState) (p : Provider)
    (res : option URL) : ExchangeAuthorizationOptions :=
  {| ex_metadata := stored_serverMetadata p;
     ex_clientInformation := stored_clientInformation p;
     ex_authorizationCode := authorizationCode s;
     ex_codeVerifier := stored_codeVerifier p;
     ex_redirectUri := redirectUrl p;
     ex_resource := res |}.

(** The template after [if (scopesSupported) clientMetadata.scope =
    scopesSupported.join(" ")]. *)
Definition with_scopes (scopesSupported : option (list jsstring))
    (m : OAuthClientMetadata) : OAuthClientMetadata :=
  match scopesSupported with
  | Some l => assign_scope (join (lit " ") l) m
  | None => m
  end.

(** The world after the template of the provider became [m]. *)
Definition with_template (m : OAuthClientMetadata) (w : World) : World :=
  {| provider := set_clientMetadata m (provider w); calls := calls w |}.

(** The world once [client_registration] has dealt with the scopes: the
    template carries the joined scopes when there are scopes, and the
    world is untouched when there are none. *)
Definition registering (scopesSupported : option (list jsstring))
    (w : World) : World :=
  match scopesSupported with
  | Some l =>
      with_template
        (assign_scope (join (lit " ") l) (clientMetadata (provider w))) w
  | None => w
  end.

(** ** A concrete run: the end-to-end scenario *)

(** Stand-ins for the collaborators, enough to run the sequencer on
    concrete inputs: an http(s)-only [URL] constructor, a server
    [https://mcp.example/] without protected-resource metadata, a server
    [https://prm.example/] that declares an authorization server, and an
    authorization server that registers client [abc]. *)
Module Scenario.

Fixpoint starts_with (prefix s : jsstring) : bool :=
  match prefix, s with
  | [], _ => true
  | p :: prefix', c :: s' => N.eqb p c && starts_with prefix' s'
  | _ :: _, [] => false
  end.

Fixpoint until_slash (s : jsstring) : jsstring :=
  match s with
  | [] => []
  | c :: r => if N.eqb c 47 then [] else c :: until_slash r
  end.

Definition scheme_of (s : jsstring) : option jsstring :=
  if starts_with (lit "https://") s then Some (lit "https://")
  else if starts_with (lit "http://") s then Some (lit "http://")
  else None.

Definition origin_of (s : jsstring) : option jsstring :=
  match scheme_of s with
  | Some sch => Some (sch ++ until_slash (skipn (List.length sch) s))
  | None => None
  end.

Definition invalid_URL : thrown :=
  ThrownError {| name := lit "TypeError"; message := lit "Invalid URL" |}.

Definition url_constructor (url : jsstring) (base : option jsstring)
  : completion URL :=
  match scheme_of url with
  | Some _ => Returned {| href := url |}
  | None =>
      match base with
      | Some b =>
          match origin_of b with
          | Some o =>
              if starts_with (lit "/") url
              then Returned {| href := o ++ url |}
              else Returned {| href := b ++ url |}
          | None => Threw invalid_URL
          end
      | None => Threw invalid_URL
      end
  end.

Definition prm_server : jsstring := lit "https://prm.example/".

Definition prm_document : OAuthProtectedResourceMetadata :=
  {| prm_resource := prm_server;
     prm_authorization_servers := Some [lit "https://auth.example/"];
     prm_scopes_supported := Some [lit "read"; lit "write"] |}.

Definition prm_fetch (serverUrl : jsstring)
  : completion OAuthProtectedResourceMetadata :=
  if jsstring_eqb serverUrl prm_server then Returned prm_document
  else Threw (ThrownValue (lit "404")).

(** The library resolves the server URL first, uses no resource without
    metadata, and rejects metadata for another resource. *)
Definition select_resource (serverUrl : jsstring) (p : Provider)
    (md : option OAuthProtectedResourceMetadata) : completion (option URL) :=
  match url_constructor serverUrl None with
  | Threw t => Threw t
  | Returned u =>
      match md with
      | None => Returned None
      | Some m =>
          if jsstring_eqb (prm_resource m) (href u)
          then Returned (Some {| href := prm_resource m |})
          else Threw (ThrownError
                        (new_Error (lit "Protected resource does not match")))
      end
  end.

Definition as_metadata : OAuthMetadata :=
  {| issuer := lit "https://mcp.example/";
     authorization_endpoint := lit "https://mcp.example/authorize";
     token_endpoint := lit "https://mcp.example/token";
     scopes_supported := Some [lit "mcp"] |}.

(** No metadata at an absent location; a document without issuer at
    [https://auth.example/]; a valid one elsewhere. *)
Definition as_fetch (u : option URL)
  : completion (option OAuthMetadata) :=
  match u with
  | None => Returned None
  | Some u =>
      if jsstring_eqb (href u) (lit "https://auth.example/")
      then Returned (Some {| issuer := [];
                             authorization_endpoint := [];
                             token_endpoint := [];
                             scopes_supported := None |})
      else Returned (Some as_metadata)
  end.

Definition schema_parse (m : OAuthMetadata)
  : completion OAuthMetadata :=
  if string_truthy (issuer m) then Returned m
  else Threw (ThrownError {| name := lit "ZodError";
                             message := lit "issuer: Required" |}).

Definition registered : OAuthClientInformation :=
  {| client_id := lit "abc"; client_secret := None |}.

(** Registration is refused at [https://prm.example/]. *)
Definition register (serverUrl : jsstring) (md : option OAuthMetadata)
    (cm : OAuthClientMetadata) : completion OAuthClientInformation :=
  if jsstring_eqb serverUrl prm_server
  then Threw (ThrownError (new_Error (lit "Dynamic client registration failed")))
  else Returned registered.

Definition tokens : OAuthTokens :=
  {| access_token := lit "tok"; token_type := lit "Bearer";
     refresh_token := None |}.

Definition C : Collaborators :=
  {| AuthorizationServerMetadata := OAuthMetadata;
     discoverOAuthProtectedResourceMetadata := prm_fetch;
     selectResourceURL := select_resource;
     URL_new := url_constructor;
     discoverAuthorizationServerMetadata := as_fetch;
     OAuthMetadataSchema_parseAsync := schema_parse;
     registerClient := register;
     discoverScopes := fun _ _ => Returned None;
     generateOAuthState := lit "f00d";
     startAuthorization := fun _ _ =>
       Returned ({| href := lit "https://mcp.example/authorize?state=f00d" |},
                 lit "verifier");
     exchangeAuthorization := fun _ _ => Returned tokens |}.

Definition server : jsstring := lit "https://mcp.example/".

Definition fresh_provider : Provider :=
  {| clientMetadata :=
       {| redirect_uris := [lit "http://localhost:6274/oauth/callback/debug"];
          client_name := Some (lit "MCP Inspector");
          scope := None |};
     redirectUrl := lit "http://localhost:6274/oauth/callback/debug";
     stored_serverMetadata := None;
     stored_clientInformation := None;
     stored_codeVerifier := None;
     stored_tokens := None |}.

Definition w0 : World := {| provider := fresh_provider; calls := [] |}.

(** The provider of a server with static client credentials. *)
Definition static_world : World :=
  {| provider := set_clientInformation registered fresh_provider;
     calls := [] |}.

Definition initial : AuthDebuggerState :=
  {| oauthStep := prm_discovery;
     resourceMetadata := None;
     resourceMetadataError := None;
     resource := None;
     authServerUrl := None;
     oauthMetadata := None;
     oauthClientInfo := None;
     authorizationUrl := None;
     authorizationCode := None;
     validationError := None;
     oauthTokens := None |}.

(** [initial] moved to [step]. *)
Definition at_step (step : OAuthStep) : AuthDebuggerState :=
  applyUpdate initial
    {| upd_oauthStep := Some step;
       upd_resourceMetadata := None;
       upd_resourceMetadataError := None;
       upd_resource := None;
       upd_authServerUrl := None;
       upd_oauthMetadata := None;
       upd_oauthClientInfo := None;
       upd_authorizationUrl := None;
       upd_authorizationCode := None;
       upd_validationError := None;
       upd_oauthTokens := None |}.

(** The provider after the redirect: metadata, client and verifier are
    persisted. *)
Definition persisted_world : World :=
  {| provider :=
       set_codeVerifier (lit "verifier")
         (set_clientInformation registered
            (set_serverMetadata as_metadata fresh_provider));
     calls := [] |}.

(** The states the scenario goes through. *)
Definition after_prm_at (auth : URL) : AuthDebuggerState :=
  applyUpdate initial
    (prm_update None (Some (new_Error (lit "404"))) None auth).

Definition after_prm : AuthDebuggerState :=
  after_prm_at {| href := lit "https://mcp.example/" |}.

Definition after_metadata : AuthDebuggerState :=
  applyUpdate after_prm (metadata_update as_metadata).

(** The same, had the protected resource declared its scopes. *)
Definition after_metadata_with_prm : AuthDebuggerState :=
  applyUpdate
    (applyUpdate initial
       (prm_update (Some prm_document) None
          (Some {| href := prm_server |})
          {| href := lit "https://mcp.example/" |}))
    (metadata_update as_metadata).

(** The state at [authorization_code] once the caller supplied [code]. *)
Definition with_code (code : jsstring) : AuthDebuggerState :=
  applyUpdate (at_step authorization_code) (upd_authorizationCode_only code).

(** One invocation of the sequencer by a caller that holds [s] and
    applies the updates it is told: the completion, the new Flow State and
    the provider the next invocation will find. *)
Definition invoke (s : AuthDebuggerState) (p : Provider)
  : completion unit * AuthDebuggerState * Provider :=
  let r := executeStep C server s {| provider := p; calls := [] |} in
  (fst r, reported s (snd r), provider (snd r)).

(** Invocations in a row, until one raises. *)
Fixpoint invoke_n (n : nat) (s : AuthDebuggerState) (p : Provider)
  : completion unit * AuthDebuggerState * Provider :=
  match n with
  | O => (Returned tt, s, p)
  | S n' =>
      match invoke s p with
      | (Returned _, s', p') => invoke_n n' s' p'
      | failed => failed
      end
  end.

End Scenario.

(** ** Vocabulary of the pipeline *)

(** The fixed order of the steps; [complete] has no successor. *)
Definition next_step (s : OAuthStep) : OAuthStep :=
  match s with
  | prm_discovery => oauth_metadata_discovery
  | oauth_metadata_discovery => client_registration
  | client_registration => authorization_redirect
  | authorization_redirect => authorization_code
  | authorization_code => token_request
  | token_request => complete
  | complete => complete
  end.

(** The preconditions of [step] are met: it is not [complete] and its
    declared fields are truthy. *)
Definition preconditions_met (step : OAuthStep) (c : StateMachineContext)
    (w : World) : bool :=
  match step with
  | complete => false
  | _ => forallb (fun f => truthy f c w) (declared step)
  end.

(** The calls that persist something in the provider. *)
Definition is_save (c : Call) : bool :=
  match c with
  | call_saveServerMetadata _ | call_saveClientInformation _
  | call_saveCodeVerifier _ | call_saveTokens _ => true
  | _ => false
  end.

(** The calls of the OAuth client library that go to the network. *)
Definition is_request (c : Call) : bool :=
  match c with
  | call_discoverOAuthProtectedResourceMetadata _
  | call_discoverAuthorizationServerMetadata _
  | call_registerClient _ _ _
  | call_discoverScopes _ _
  | call_startAuthorization _ _
  | call_exchangeAuthorization _ _ => true
  | _ => false
  end.

(** Two providers persist the same items for the same redirect target;
    only the registration template may differ. *)
Definition same_persisted (p p' : Provider) : Prop :=
  redirectUrl p' = redirectUrl p
  /\ stored_serverMetadata p' = stored_serverMetadata p
  /\ stored_clientInformation p' = stored_clientInformation p
  /\ stored_codeVerifier p' = stored_codeVerifier p
  /\ stored_tokens p' = stored_tokens p.

(** One invocation of the sequencer by a caller that holds [s], applies
    the updates it is told and keeps the provider for the next
    invocation. *)
Definition step_once (C : Collaborators) (url : jsstring)
    (s : AuthDebuggerState) (p : Provider)
  : completion unit * AuthDebuggerState * Provider :=
  let r := executeStep C url s {| provider := p; calls := [] |} in
  (fst r, reported s (snd r), provider (snd r)).

(** [n] invocations in a row, stopping at the first that raises. *)
Fixpoint step_n (C : Collaborators) (url : jsstring) (n : nat)
    (s : AuthDebuggerState) (p : Provider)
  : completion unit * AuthDebuggerState * Provider :=
  match n with
  | O => (Returned tt, s, p)
  | S n' =>
      match step_once C url s p with
      | (Returned _, s', p') => step_n C url n' s' p'
      | failed => failed
      end
  end.

(** The position of a step in the fixed order. *)
Definition step_index (s : OAuthStep) : nat :=
  match s with
  | prm_discovery => 0
  | oauth_metadata_discovery => 1
  | client_registration => 2
  | authorization_redirect => 3
  | authorization_code => 4
  | token_request => 5
  | complete => 6
  end.

(** A Flow State and provider from which the flow can go on without the
    caller: the preconditions of the step are met, the authorization
    code is not blank, and the provider holds what the steps already
    taken have persisted. *)
Definition ready (url : jsstring) (s : AuthDebuggerState) (p : Provider)
  : Prop :=
  preconditions_met (oauthStep s) {| state := s; serverUrl := url |}
    {| provider := p; calls := [] |} = true
  /\ code_is_blank (authorizationCode s) = false
  /\ (Nat.leb 2 (step_index (oauthStep s)) = true ->
      is_set (stored_serverMetadata p) = true)
  /\ (Nat.leb 3 (step_index (oauthStep s)) = true ->
      is_set (stored_clientInformation p) = true).

(** Invocations one after the other by a caller that, before each of
    them, may supply an authorization code, and that goes on with the
    Flow State it holds whether the invocation returned or raised. *)
Fixpoint invoke_all (C : Collaborators) (url : jsstring)
    (inputs : list (option jsstring))
    (s : AuthDebuggerState) (p : Provider) : AuthDebuggerState * Provider :=
  match inputs with
  | [] => (s, p)
  | input :: rest =>
      let s0 := match input with
                | Some code => applyUpdate s (upd_authorizationCode_only code)
                | None => s
                end in
      let r := step_once C url s0 p in
      invoke_all C url rest (snd (fst r)) (snd r)
  end.

(** The collaborators answer the invocation at [s] with provider [p]:
    each call that the action of the current step makes after its
    tolerated ones, with the arguments it passes, returns (and the
    authorization server has metadata). *)
Definition answers (C : Collaborators) (url : jsstring)
    (s : AuthDebuggerState) (p : Provider) : Prop :=
  match oauthStep s with
  | prm_discovery =>
      let md := fst (fetched_metadata C url) in
      raised (selectResourceURL C url p md) = false
      /\ raised (URL_new C (lit "/") (Some url)) = false
      /\ (forall first,
            first_authorization_server md = Some first ->
            raised (URL_new C first None) = false)
  | oauth_metadata_discovery =>
      exists raw,
        discoverAuthorizationServerMetadata C (authServerUrl s) =
          Returned (Some raw)
        /\ raised (OAuthMetadataSchema_parseAsync C raw) = false
  | client_registration =>
      stored_clientInformation p = None ->
      forall sc,
        scopesSupported_of s = Returned sc ->
        raised (registerClient C url (oauthMetadata s)
                  (with_scopes sc (clientMetadata p))) = false
  | authorization_redirect =>
      exists sc,
        discoverScopes C url (resourceMetadata s) = Returned sc
        /\ raised (startAuthorization C url (redirect_options C s p sc)) =
             false
  | authorization_code => True
  | token_request =>
      exists res,
        resource_as_URL C (resource s) = Returned res
        /\ raised (exchangeAuthorization C url (exchange_options s p res)) =
             false
  | complete => True
  end.

(** The collaborators answer each of the next [n] invocations. *)
Fixpoint answers_n (C : Collaborators) (url : jsstring) (n : nat)
    (s : AuthDebuggerState) (p : Provider) : Prop :=
  match n with
  | O => True
  | S n' =>
      answers C url s p
      /\ answers_n C url n' (snd (fst (step_once C url s p)))
           (snd (step_once C url s p))
  end.

(** A server whose protected-resource metadata names another resource,
    and declares an authorization server. *)
Module Mismatch.

Definition other_document : OAuthProtectedResourceMetadata :=
  {| prm_resource := lit "https://other.example/";
     prm_authorization_servers := Some [lit "https://auth.example/"];
     prm_scopes_supported := None |}.

Definition C : Collaborators :=
  {| AuthorizationServerMetadata := OAuthMetadata;
     discoverOAuthProtectedResourceMetadata := fun _ =>
       Returned other_document;
     selectResourceURL := Scenario.select_resource;
     URL_new := Scenario.url_constructor;
     discoverAuthorizationServerMetadata := Scenario.as_fetch;
     OAuthMetadataSchema_parseAsync := Scenario.schema_parse;
     registerClient := Scenario.register;
     discoverScopes := fun _ _ => Returned None;
     generateOAuthState := lit "f00d";
     startAuthorization := fun _ _ =>
       Returned ({| href := lit "https://mcp.example/authorize?state=f00d" |},
                 lit "verifier");
     exchangeAuthorization := fun _ _ => Returned Scenario.tokens |}.

End Mismatch.

(** * Properties *)

(** ** Strings *)

Lemma trimStart_nil_iff (s : jsstring) :
  trimStart s = [] <-> forallb isWhiteSpace s = true.
Proof.
  induction s as [|c r IH]; simpl.
  - tauto.
  - destruct (isWhiteSpace c); simpl.
    + exact IH.
    + split; discriminate.
Qed.

Lemma forallb_trimStart (s : jsstring) :
  forallb isWhiteSpace (trimStart s) = forallb isWhiteSpace s.
Proof.
  induction s as [|c r IH]; simpl; trivial.
  destruct (isWhiteSpace c) eqn:E; simpl.
  - exact IH.
  - now rewrite E.
Qed.

Lemma forallb_rev (f : code_unit -> bool) (s : jsstring) :
  forallb f (rev s) = forallb f s.
Proof.
  induction s as [|c r IH]; simpl; trivial.
  rewrite forallb_app, IH. simpl. rewrite andb_true_r. apply andb_comm.
Qed.

Lemma rev_nil_iff (A : Type) (l : list A) : rev l = [] <-> l = [].
Proof.
  split; intros H.
  - rewrite <- (rev_involutive l), H. reflexivity.
  - now subst.
Qed.

(** [trim] leaves nothing exactly of the strings made of white space. *)
Lemma trim_nil_iff (s : jsstring) :
  trim s = [] <-> Forall (fun c => isWhiteSpace c = true) s.
Proof.
  unfold trim, trimEnd.
  etransitivity; [apply rev_nil_iff|].
  etransitivity; [apply trimStart_nil_iff|].
  rewrite forallb_rev, forallb_trimStart.
  rewrite forallb_forall, Forall_forall. tauto.
Qed.

Lemma jsstring_eqb_spec (a b : jsstring) :
  jsstring_eqb a b = true <-> a = b.
Proof.
  unfold jsstring_eqb. destruct (list_eq_dec N.eq_dec a b); split;
    trivial; try discriminate; contradiction.
Qed.

(** The test of the source, [!code || code.trim() === ""], decides
    [blank]. *)
Lemma code_is_blank_iff (code : option jsstring) :
  code_is_blank code = true <-> blank code.
Proof.
  destruct code as [s|]; [|simpl; tauto].
  cbn [blank]. rewrite <- trim_nil_iff.
  unfold code_is_blank, code_truthy.
  rewrite orb_true_iff, jsstring_eqb_spec.
  split; [|tauto].
  intros [H|H]; trivial.
  destruct s; [reflexivity | discriminate].
Qed.

Lemma code_is_blank_false_iff (code : option jsstring) :
  code_is_blank code = false <-> ~ blank code.
Proof.
  rewrite <- code_is_blank_iff. destruct (code_is_blank code); intuition congruence.
Qed.

(** ** The call log *)

Lemma updates_of_app (l1 l2 : list Call) :
  updates_of (l1 ++ l2) = updates_of l1 ++ updates_of l2.
Proof.
  induction l1 as [|c r IH]; simpl; trivial.
  destruct c; simpl; now rewrite IH.
Qed.

Lemma reported_logged (s : AuthDebuggerState) (w : World) (l : list Call) :
  reported s (logged w l) = fold_left applyUpdate (updates_of l) (reported s w).
Proof.
  unfold reported, logged. simpl.
  now rewrite updates_of_app, fold_left_app.
Qed.

(** Unfolding of the monad and of the provider methods. *)
Ltac run :=
  cbv beta iota zeta delta
    [executeStep oauthTransitions canTransition execute
     prm_discovery_execute oauth_metadata_discovery_execute
     client_registration_execute authorization_redirect_execute
     authorization_code_execute token_request_execute
     token_request_canTransition
     provider_method.getServerMetadata provider_method.clientInformation
     provider_method.codeVerifier provider_method.saveServerMetadata
     provider_method.saveClientInformation provider_method.saveCodeVerifier
     provider_method.saveTokens
     updateState new_URL await settle log modify_provider get_provider
     try_catch throw_new_Error throw bind ret].

(** ** The terminal step *)

(** C1. Once the step is [complete], every invocation of the sequencer
    raises the guard violation that names [complete] and leaves the world
    as it was: no call is logged, so [updateState] is not called and the
    Flow State the caller holds is unchanged.  The guard of [complete] is
    constantly false and its action returns without any effect. *)
Theorem complete_is_terminal (C : Collaborators) (url : jsstring)
    (s : AuthDebuggerState) (w : World) :
  oauthStep s = complete ->
  executeStep C url s w =
    (Threw (ThrownError
              (new_Error (lit "Cannot transition from complete"))), w)
  /\ updates_of (calls (snd (executeStep C url s w))) = updates_of (calls w)
  /\ reported s (snd (executeStep C url s w)) = reported s w
  /\ (forall context w',
        canTransition (oauthTransitions C complete) context w' =
          (Returned false, w'))
  /\ (forall context w',
        execute (oauthTransitions C complete) context w' =
          (Returned tt, w')).
Proof.
  intros H.
  assert (E : executeStep C url s w =
              (Threw (ThrownError
                 (new_Error (lit "Cannot transition from complete"))), w)).
  { unfold executeStep. rewrite H. reflexivity. }
  rewrite E. simpl. repeat split.
Qed.

Lemma complete_is_terminal_witness :
  let s := Scenario.at_step complete in
  oauthStep s = complete /\
  executeStep Scenario.C Scenario.server s Scenario.w0 =
    (Threw (guard_violation complete), Scenario.w0).
Proof.
  split; [reflexivity|].
  apply (complete_is_terminal Scenario.C Scenario.server
           (Scenario.at_step complete) Scenario.w0).
  reflexivity.
Defined.

(** ** Validation of the authorization code *)

(** C2. At step [authorization_code]: for a blank code (absent, empty or
    white space only) the step logs one update that carries only the
    user-facing [validationError], then raises; the Flow State keeps its
    step.  For any other code it logs one update that clears
    [validationError] and moves the step to [token_request], and
    returns. *)
Theorem authorization_code_validates (C : Collaborators) (url : jsstring)
    (s : AuthDebuggerState) (w : World) :
  oauthStep s = authorization_code ->
  (blank (authorizationCode s) ->
     let u := only_validationError
                (Some (lit "You need to provide an authorization code")) in
     executeStep C url s w =
       (Threw (ThrownError (new_Error (lit "Authorization code required"))),
        logged w [call_updateState u])
     /\ validationError (applyUpdate s u) =
          Some (lit "You need to provide an authorization code")
     /\ oauthStep (applyUpdate s u) = authorization_code)
  /\
  (~ blank (authorizationCode s) ->
     executeStep C url s w =
       (Returned tt, logged w [call_updateState code_accepted])
     /\ validationError (applyUpdate s code_accepted) = None
     /\ oauthStep (applyUpdate s code_accepted) = token_request).
Proof.
  intros Hstep. split; intros Hcode.
  - apply code_is_blank_iff in Hcode.
    unfold executeStep. rewrite Hstep. run. cbn [state]. rewrite Hcode.
    repeat split. simpl. exact Hstep.
  - apply code_is_blank_false_iff in Hcode.
    unfold executeStep. rewrite Hstep. run. cbn [state]. rewrite Hcode.
    repeat split.
Qed.

Lemma authorization_code_validates_witness :
  (* space, tab, no-break space *)
  let s1 := Scenario.with_code [32; 9; 160]%N in
  let s2 := Scenario.with_code (lit "xyz789") in
  (oauthStep s1 = authorization_code /\
   blank (authorizationCode s1) /\
   executeStep Scenario.C Scenario.server s1 Scenario.w0 =
     (Threw (ThrownError (new_Error (lit "Authorization code required"))),
      logged Scenario.w0
        [call_updateState
           (only_validationError
              (Some (lit "You need to provide an authorization code")))]))
  /\
  (oauthStep s2 = authorization_code /\
   ~ blank (authorizationCode s2) /\
   executeStep Scenario.C Scenario.server s2 Scenario.w0 =
     (Returned tt, logged Scenario.w0 [call_updateState code_accepted])).
Proof.
  assert (B1 : blank (authorizationCode (Scenario.with_code [32; 9; 160]%N)))
    by (repeat constructor).
  assert (B2 : ~ blank (authorizationCode (Scenario.with_code (lit "xyz789"))))
    by (apply code_is_blank_false_iff; reflexivity).
  split; (split; [reflexivity|]); (split; [assumption|]).
  - apply (authorization_code_validates Scenario.C Scenario.server
             (Scenario.with_code [32; 9; 160]%N) Scenario.w0);
      [reflexivity | exact B1].
  - apply (authorization_code_validates Scenario.C Scenario.server
             (Scenario.with_code (lit "xyz789")) Scenario.w0);
      [reflexivity | exact B2].
Defined.

(** ** Protected-resource metadata discovery *)

(** Two descriptions of the same world. *)
Ltac same_world :=
  unfold logged, with_template; cbn [provider calls app fst snd];
  repeat rewrite <- app_assoc; cbn [app]; reflexivity.

(** When the guard passes, the sequencer runs the action. *)
Lemma executeStep_passes (C : Collaborators) (url : jsstring)
    (s : AuthDebuggerState) (w : World) :
  canTransition (oauthTransitions C (oauthStep s))
    {| state := s; serverUrl := url |} w = (Returned true, w) ->
  executeStep C url s w =
    execute (oauthTransitions C (oauthStep s))
      {| state := s; serverUrl := url |} w.
Proof.
  intros H. unfold executeStep, bind. rewrite H. reflexivity.
Qed.

(** When the guard fails, the sequencer raises and nothing else happens. *)
Lemma executeStep_blocked (C : Collaborators) (url : jsstring)
    (s : AuthDebuggerState) (w : World) :
  canTransition (oauthTransitions C (oauthStep s))
    {| state := s; serverUrl := url |} w = (Returned false, w) ->
  executeStep C url s w = (Threw (guard_violation (oauthStep s)), w).
Proof.
  intros H. unfold executeStep, bind. rewrite H. reflexivity.
Qed.

(** Every run of [prm_discovery], by the completions of the calls it makes
    after the fetch: resource selection, the root URL, and the URL of the
    first declared authorization server. *)
Lemma prm_discovery_execute_cases (C : Collaborators)
    (context : StateMachineContext) (w : World) :
  let url := serverUrl context in
  let md := fst (fetched_metadata C url) in
  let err := snd (fetched_metadata C url) in
  let made := [call_discoverOAuthProtectedResourceMetadata url;
               call_selectResourceURL url md] in
  prm_discovery_execute C context w =
    match selectResourceURL C url (provider w) md with
    | Threw t => (Threw t, logged w made)
    | Returned res =>
        match URL_new C (lit "/") (Some url) with
        | Threw t => (Threw t, logged w made)
        | Returned root =>
            match first_authorization_server md with
            | None =>
                (Returned tt,
                 logged w (made ++
                           [call_updateState (prm_update md err res root)]))
            | Some first =>
                match URL_new C first None with
                | Threw t => (Threw t, logged w made)
                | Returned auth =>
                    (Returned tt,
                     logged w (made ++
                               [call_updateState
                                  (prm_update md err res auth)]))
                end
            end
        end
    end.
Proof.
  intros url md err made. subst md err made. unfold fetched_metadata.
  subst url. run.
  destruct (discoverOAuthProtectedResourceMetadata C (serverUrl context))
    as [m|t]; cbn [fst snd provider logged first_authorization_server].
  - destruct (selectResourceURL C (serverUrl context) (provider w) (Some m));
      [|f_equal; same_world].
    destruct (URL_new C (lit "/") (Some (serverUrl context)));
      [|f_equal; same_world].
    destruct m as [r [[|first rest]|] sc];
      cbn [prm_authorization_servers];
      try (unfold prm_update; f_equal; same_world).
    destruct (URL_new C first None);
      unfold prm_update; f_equal; same_world.
  - destruct (selectResourceURL C (serverUrl context) (provider w) None);
      [|f_equal; same_world].
    destruct (URL_new C (lit "/") (Some (serverUrl context)));
      unfold prm_update; f_equal; same_world.
Qed.

(** At [prm_discovery] the sequencer runs the action. *)
Lemma executeStep_prm_discovery (C : Collaborators) (url : jsstring)
    (s : AuthDebuggerState) (w : World) :
  oauthStep s = prm_discovery ->
  executeStep C url s w =
    prm_discovery_execute C {| state := s; serverUrl := url |} w.
Proof.
  intros H. rewrite executeStep_passes; rewrite H; reflexivity.
Qed.

(** What the fetch leaves: the metadata or the error, never both. *)
Lemma fetched_metadata_cases (C : Collaborators) (url : jsstring) :
  let md := fst (fetched_metadata C url) in
  let err := snd (fetched_metadata C url) in
  is_set md = negb (is_set err)
  /\ (forall m, discoverOAuthProtectedResourceMetadata C url = Returned m ->
        md = Some m /\ err = None)
  /\ (forall t, discoverOAuthProtectedResourceMetadata C url = Threw t ->
        md = None /\ err = Some (as_Error t)).
Proof.
  unfold fetched_metadata.
  destruct (discoverOAuthProtectedResourceMetadata C url); cbn;
    (split; [reflexivity|]); split; intros ? E; inversion E;
    split; reflexivity.
Qed.

(** C3, as the code has it.  The failure of the metadata fetch is never
    what makes [prm_discovery] raise: it is kept in
    [resourceMetadataError].  The step raises exactly when one of the calls
    made after the fetch raises (resource selection, the root URL, the URL
    of the first declared authorization server); in every other run it
    returns after one update that moves the step to
    [oauth_metadata_discovery]. *)
Theorem prm_discovery_tolerates_fetch_failure (C : Collaborators)
    (url : jsstring) (s : AuthDebuggerState) (w : World) :
  oauthStep s = prm_discovery ->
  let md := fst (fetched_metadata C url) in
  let err := snd (fetched_metadata C url) in
  let r := executeStep C url s w in
  (raised (fst r) = true <->
     raised (selectResourceURL C url (provider w) md) = true
     \/ raised (URL_new C (lit "/") (Some url)) = true
     \/ exists first,
          first_authorization_server md = Some first
          /\ raised (URL_new C first None) = true)
  /\ (raised (fst r) = false ->
        exists res auth,
          r = (Returned tt,
               logged w [call_discoverOAuthProtectedResourceMetadata url;
                         call_selectResourceURL url md;
                         call_updateState (prm_update md err res auth)])
          /\ oauthStep (applyUpdate s (prm_update md err res auth)) =
               oauth_metadata_discovery
          /\ resourceMetadataError (applyUpdate s (prm_update md err res auth))
               = err)
  /\ (forall t, discoverOAuthProtectedResourceMetadata C url = Threw t ->
        err = Some (as_Error t)).
Proof.
  intros Hstep md err r. subst r.
  rewrite executeStep_prm_discovery by exact Hstep.
  rewrite prm_discovery_execute_cases. cbn [serverUrl].
  fold md err.
  split; [|split].
  - destruct (selectResourceURL C url (provider w) md); cbn [raised fst];
      [|split; [intros _; left|]; reflexivity].
    destruct (URL_new C (lit "/") (Some url)); cbn [raised fst];
      [|split; [intros _; right; left|]; reflexivity].
    destruct (first_authorization_server md) as [first|]; cbn [raised fst].
    + destruct (URL_new C first None) eqn:E; cbn [raised fst].
      * split; [discriminate|].
        intros [H|[H|[f [Hf H]]]]; try discriminate.
        inversion Hf; subst. rewrite E in H. discriminate.
      * split; trivial. intros _. right. right. exists first.
        rewrite E. split; reflexivity.
    + split; [discriminate|].
      intros [H|[H|[f [Hf H]]]]; discriminate.
  - destruct (selectResourceURL C url (provider w) md) as [res|];
      cbn [raised fst]; [|discriminate].
    destruct (URL_new C (lit "/") (Some url)) as [root|]; cbn [raised fst]; [|discriminate].
    destruct (first_authorization_server md) as [first|]; cbn [raised fst].
    + destruct (URL_new C first None) as [auth|]; cbn [raised fst]; [|discriminate].
      intros _. exists res, auth. repeat split.
    + intros _. exists res, root. repeat split.
  - intros t E. apply (fetched_metadata_cases C url) in E. apply E.
Qed.

Lemma prm_discovery_tolerates_fetch_failure_witness :
  oauthStep Scenario.initial = prm_discovery /\
  exists res auth,
    executeStep Scenario.C Scenario.server Scenario.initial Scenario.w0 =
      (Returned tt,
       logged Scenario.w0
         [call_discoverOAuthProtectedResourceMetadata Scenario.server;
          call_selectResourceURL Scenario.server None;
          call_updateState
            (prm_update None (Some (new_Error (lit "404"))) res auth)])
    /\ oauthStep
         (applyUpdate Scenario.initial
            (prm_update None (Some (new_Error (lit "404"))) res auth)) =
       oauth_metadata_discovery
    /\ resourceMetadataError
         (applyUpdate Scenario.initial
            (prm_update None (Some (new_Error (lit "404"))) res auth)) =
       Some (new_Error (lit "404")).
Proof.
  split; [reflexivity|].
  apply (prm_discovery_tolerates_fetch_failure Scenario.C Scenario.server
           Scenario.initial Scenario.w0); reflexivity.
Defined.

(** C3, as stated, fails: with a server URL that is not a URL the fetch
    fails and is tolerated, but resource selection then raises, outside
    the [try] block, and no update is issued.  (Had resource selection
    returned, [new URL("/", serverUrl)] would have raised instead.) *)
Lemma prm_discovery_raises_on_malformed_server_url :
  oauthStep Scenario.initial = prm_discovery /\
  executeStep Scenario.C (lit "mcp.example") Scenario.initial Scenario.w0 =
    (Threw Scenario.invalid_URL,
     logged Scenario.w0
       [call_discoverOAuthProtectedResourceMetadata (lit "mcp.example");
        call_selectResourceURL (lit "mcp.example") None])
  /\ URL_new Scenario.C (lit "/") (Some (lit "mcp.example")) =
       Threw Scenario.invalid_URL.
Proof.
  repeat split.
Qed.

(** ** The authorization server chosen by [prm_discovery] *)

(** C4, as the code has it.  [prm_discovery] against [url] sets
    [authServerUrl] to the URL of the first entry of
    [authorization_servers] when the fetched metadata has a non-empty
    such list, and to [new URL("/", url)] otherwise (the fetch threw, or
    the list is absent or empty), provided resource selection,
    [new URL("/", url)] (built in both cases) and, in the first case,
    [new URL] of the first entry return.  When one of these raises, the
    step raises and the Flow State, [authServerUrl] included, is left as
    it was. *)
Theorem prm_discovery_authServerUrl (C : Collaborators) (url : jsstring)
    (s : AuthDebuggerState) (w : World) :
  oauthStep s = prm_discovery ->
  let md := fst (fetched_metadata C url) in
  let err := snd (fetched_metadata C url) in
  let r := executeStep C url s w in
  let selected := selectResourceURL C url (provider w) md in
  let root := URL_new C (lit "/") (Some url) in
  (forall m first rest,
     discoverOAuthProtectedResourceMetadata C url = Returned m ->
     prm_authorization_servers m = Some (first :: rest) ->
     (forall res rt auth,
        selected = Returned res -> root = Returned rt ->
        URL_new C first None = Returned auth ->
        r = (Returned tt,
             logged w [call_discoverOAuthProtectedResourceMetadata url;
                       call_selectResourceURL url md;
                       call_updateState (prm_update md err res auth)])
        /\ authServerUrl (applyUpdate s (prm_update md err res auth)) =
             Some auth)
     /\
     (raised selected = true \/ raised root = true
      \/ raised (URL_new C first None) = true ->
      raised (fst r) = true /\ reported s (snd r) = reported s w))
  /\
  ((forall m, discoverOAuthProtectedResourceMetadata C url = Returned m ->
      prm_authorization_servers m = None
      \/ prm_authorization_servers m = Some []) ->
   (forall res rt,
      selected = Returned res -> root = Returned rt ->
      r = (Returned tt,
           logged w [call_discoverOAuthProtectedResourceMetadata url;
                     call_selectResourceURL url md;
                     call_updateState (prm_update md err res rt)])
      /\ authServerUrl (applyUpdate s (prm_update md err res rt)) = Some rt)
   /\
   (raised selected = true \/ raised root = true ->
    raised (fst r) = true /\ reported s (snd r) = reported s w)).
Proof.
  intros Hstep md err r selected root. subst r selected root.
  rewrite executeStep_prm_discovery by exact Hstep.
  rewrite prm_discovery_execute_cases. cbn [serverUrl].
  fold md err.
  assert (Hfirst : forall m first rest,
            discoverOAuthProtectedResourceMetadata C url = Returned m ->
            prm_authorization_servers m = Some (first :: rest) ->
            first_authorization_server md = Some first).
  { intros m first rest Hm Hl. subst md. unfold fetched_metadata.
    rewrite Hm. cbn [fst first_authorization_server]. now rewrite Hl. }
  assert (Hnone : (forall m,
              discoverOAuthProtectedResourceMetadata C url = Returned m ->
              prm_authorization_servers m = None
              \/ prm_authorization_servers m = Some []) ->
            first_authorization_server md = None).
  { intros H. subst md. unfold fetched_metadata.
    destruct (discoverOAuthProtectedResourceMetadata C url) as [m|t];
      cbn [fst first_authorization_server]; [|reflexivity].
    destruct (H m eq_refl) as [E|E]; now rewrite E. }
  split.
  - intros m first rest Hm Hl. rewrite (Hfirst m first rest Hm Hl). split.
    + intros res rt auth Hsel Hroot Hauth. rewrite Hsel, Hroot, Hauth.
      split; reflexivity.
    + intros H.
      destruct (selectResourceURL C url (provider w) md);
        [|cbn [fst snd raised]; now rewrite reported_logged].
      destruct (URL_new C (lit "/") (Some url));
        [|cbn [fst snd raised]; now rewrite reported_logged].
      destruct (URL_new C first None);
        [|cbn [fst snd raised]; now rewrite reported_logged].
      cbn [raised] in H. destruct H as [H|[H|H]]; discriminate H.
  - intros Hn. rewrite (Hnone Hn). split.
    + intros res rt Hsel Hroot. rewrite Hsel, Hroot. split; reflexivity.
    + intros H.
      destruct (selectResourceURL C url (provider w) md);
        [|cbn [fst snd raised]; now rewrite reported_logged].
      destruct (URL_new C (lit "/") (Some url));
        [|cbn [fst snd raised]; now rewrite reported_logged].
      cbn [raised] in H. destruct H as [H|H]; discriminate H.
Qed.

Lemma prm_discovery_authServerUrl_witness :
  (exists u,
     updates_of
       (calls (snd (executeStep Scenario.C Scenario.prm_server
                      Scenario.initial Scenario.w0))) = [u]
     /\ authServerUrl (applyUpdate Scenario.initial u) =
          Some {| href := lit "https://auth.example/" |})
  /\
  (exists u,
     updates_of
       (calls (snd (executeStep Scenario.C Scenario.server
                      Scenario.initial Scenario.w0))) = [u]
     /\ authServerUrl (applyUpdate Scenario.initial u) =
          Some {| href := lit "https://mcp.example/" |}).
Proof.
  split.
  - destruct (@prm_discovery_authServerUrl Scenario.C Scenario.prm_server
                Scenario.initial Scenario.w0 eq_refl) as [H _].
    destruct (H Scenario.prm_document (lit "https://auth.example/") []
                eq_refl eq_refl) as [H' _].
    destruct (H' (Some {| href := Scenario.prm_server |})
                 {| href := Scenario.prm_server |}
                 {| href := lit "https://auth.example/" |}
                 eq_refl eq_refl eq_refl) as [E A].
    rewrite E. eexists. split; [reflexivity | exact A].
  - destruct (@prm_discovery_authServerUrl Scenario.C Scenario.server
                Scenario.initial Scenario.w0 eq_refl) as [_ H].
    destruct H as [H' _].
    + intros m Hm. discriminate Hm.
    + destruct (H' None {| href := lit "https://mcp.example/" |}
                  eq_refl eq_refl) as [E A].
      rewrite E. eexists. split; [reflexivity | exact A].
Defined.

(** C4, as stated, fails: the metadata of the server declares an
    authorization server, yet names another resource; resource
    selection rejects it, outside the [try] block, so the step raises
    and [authServerUrl] is not set to the declared server: it stays
    unset. *)
Lemma prm_discovery_leaves_authServerUrl_unset :
  let r := executeStep Mismatch.C Scenario.server Scenario.initial
             Scenario.w0 in
  oauthStep Scenario.initial = prm_discovery
  /\ discoverOAuthProtectedResourceMetadata Mismatch.C Scenario.server =
       Returned Mismatch.other_document
  /\ prm_authorization_servers Mismatch.other_document =
       Some [lit "https://auth.example/"]
  /\ r = (Threw (ThrownError
                   (new_Error (lit "Protected resource does not match"))),
          logged Scenario.w0
            [call_discoverOAuthProtectedResourceMetadata Scenario.server;
             call_selectResourceURL Scenario.server
               (Some Mismatch.other_document)])
  /\ authServerUrl (reported Scenario.initial (snd r)) = None.
Proof.
  repeat split.
Qed.

(** ** Metadata and error, in the update of [prm_discovery] *)

(** C10, as the code has it.  The fetch leaves exactly one of metadata
    and error: the metadata when it returned, the error (wrapped in an
    [Error] if it was not one) when it threw.  A run of [prm_discovery]
    returns exactly when resource selection and the URL constructions
    return; it then issues exactly one update, which writes both
    [resourceMetadata] and [resourceMetadataError], with these two
    values.  A run that raises issues no update: neither field is
    written. *)
Theorem prm_discovery_metadata_xor_error (C : Collaborators)
    (url : jsstring) (s : AuthDebuggerState) (w : World) :
  oauthStep s = prm_discovery ->
  let md := fst (fetched_metadata C url) in
  let err := snd (fetched_metadata C url) in
  let r := executeStep C url s w in
  (is_set md = negb (is_set err)
   /\ (forall m,
         discoverOAuthProtectedResourceMetadata C url = Returned m ->
         md = Some m /\ err = None)
   /\ (forall t,
         discoverOAuthProtectedResourceMetadata C url = Threw t ->
         md = None /\ err = Some (as_Error t)))
  /\
  (raised (fst r) = false <->
   raised (selectResourceURL C url (provider w) md) = false
   /\ raised (URL_new C (lit "/") (Some url)) = false
   /\ (forall first,
         first_authorization_server md = Some first ->
         raised (URL_new C first None) = false))
  /\
  (raised (fst r) = false ->
   exists u,
     fst r = Returned tt
     /\ updates_of (calls (snd r)) = updates_of (calls w) ++ [u]
     /\ upd_resourceMetadata u = Some md
     /\ upd_resourceMetadataError u = Some err
     /\ resourceMetadata (applyUpdate s u) = md
     /\ resourceMetadataError (applyUpdate s u) = err)
  /\
  (raised (fst r) = true ->
   updates_of (calls (snd r)) = updates_of (calls w)
   /\ reported s (snd r) = reported s w).
Proof.
  intros Hstep md err r. subst r.
  rewrite executeStep_prm_discovery by exact Hstep.
  rewrite prm_discovery_execute_cases. cbn [serverUrl].
  fold md err.
  split; [apply fetched_metadata_cases|].
  destruct (selectResourceURL C url (provider w) md) as [res|];
    cbn [fst snd raised].
  2:{ split; [|split].
      - split; [discriminate | intros [H _]; discriminate H].
      - discriminate.
      - intros _. rewrite reported_logged.
        unfold logged; cbn [calls]. rewrite updates_of_app.
        split; [apply app_nil_r | reflexivity]. }
  destruct (URL_new C (lit "/") (Some url)) as [root|];
    cbn [fst snd raised].
  2:{ split; [|split].
      - split; [discriminate | intros (_ & H & _); discriminate H].
      - discriminate.
      - intros _. rewrite reported_logged.
        unfold logged; cbn [calls]. rewrite updates_of_app.
        split; [apply app_nil_r | reflexivity]. }
  destruct (first_authorization_server md) as [first|].
  - destruct (URL_new C first None) as [auth|] eqn:E;
      cbn [fst snd raised].
    + split; [|split].
      * split; [|reflexivity]. intros _. repeat split.
        intros f Hf. injection Hf as <-. now rewrite E.
      * intros _. exists (prm_update md err res auth).
        unfold logged; cbn [calls]. rewrite updates_of_app.
        repeat split.
      * discriminate.
    + split; [|split].
      * split; [discriminate|]. intros (_ & _ & H).
        specialize (H first eq_refl). rewrite E in H. discriminate H.
      * discriminate.
      * intros _. rewrite reported_logged.
        unfold logged; cbn [calls]. rewrite updates_of_app.
        split; [apply app_nil_r | reflexivity].
  - cbn [fst snd raised]. split; [|split].
    + split; [|reflexivity]. intros _. repeat split. discriminate.
    + intros _. exists (prm_update md err res root).
      unfold logged; cbn [calls]. rewrite updates_of_app.
      repeat split.
    + discriminate.
Qed.

Lemma prm_discovery_metadata_xor_error_witness :
  (exists u,
     updates_of
       (calls (snd (executeStep Scenario.C Scenario.server
                      Scenario.initial Scenario.w0))) = [u]
     /\ upd_resourceMetadata u = Some None
     /\ upd_resourceMetadataError u = Some (Some (new_Error (lit "404"))))
  /\
  (exists u,
     updates_of
       (calls (snd (executeStep Scenario.C Scenario.prm_server
                      Scenario.initial Scenario.w0))) = [u]
     /\ upd_resourceMetadata u = Some (Some Scenario.prm_document)
     /\ upd_resourceMetadataError u = Some None).
Proof.
  split.
  - destruct (@prm_discovery_metadata_xor_error Scenario.C Scenario.server
                Scenario.initial Scenario.w0 eq_refl) as (_ & _ & H & _).
    destruct (H eq_refl) as (u & _ & Hu & Hm & He & _).
    exists u. repeat split; assumption.
  - destruct (@prm_discovery_metadata_xor_error Scenario.C
                Scenario.prm_server Scenario.initial Scenario.w0 eq_refl)
      as (_ & _ & H & _).
    destruct (H eq_refl) as (u & _ & Hu & Hm & He & _).
    exists u. repeat split; assumption.
Defined.

(** C10, as stated, fails: with a server URL that is not a URL the fetch
    throws and the error is caught, but resource selection then raises;
    the run issues no update, so neither [resourceMetadata] nor
    [resourceMetadataError] is written and the caught error is lost. *)
Lemma prm_discovery_writes_neither_field_when_it_raises :
  let r := executeStep Scenario.C (lit "mcp.example") Scenario.initial
             Scenario.w0 in
  oauthStep Scenario.initial = prm_discovery
  /\ discoverOAuthProtectedResourceMetadata Scenario.C (lit "mcp.example") =
       Threw (ThrownValue (lit "404"))
  /\ fst r = Threw Scenario.invalid_URL
  /\ updates_of (calls (snd r)) = []
  /\ resourceMetadata (reported Scenario.initial (snd r)) = None
  /\ resourceMetadataError (reported Scenario.initial (snd r)) = None.
Proof.
  repeat split.
Qed.

(** ** Authorization-server metadata discovery *)

(** Every run of [oauth_metadata_discovery], by the completions of the
    fetch and of the schema validation. *)
Lemma oauth_metadata_discovery_execute_cases (C : Collaborators)
    (context : StateMachineContext) (w : World) :
  let a := authServerUrl (state context) in
  oauth_metadata_discovery_execute C context w =
    match discoverAuthorizationServerMetadata C a with
    | Threw t =>
        (Threw t, logged w [call_discoverAuthorizationServerMetadata a])
    | Returned None =>
        (Threw (ThrownError
                  (new_Error (lit "Failed to discover OAuth metadata"))),
         logged w [call_discoverAuthorizationServerMetadata a])
    | Returned (Some raw) =>
        match OAuthMetadataSchema_parseAsync C raw with
        | Threw t =>
            (Threw t,
             logged w [call_discoverAuthorizationServerMetadata a;
                       call_parseAsync])
        | Returned m =>
            (Returned tt,
             {| provider := set_serverMetadata m (provider w);
                calls := calls w ++
                  [call_discoverAuthorizationServerMetadata a;
                   call_parseAsync;
                   call_saveServerMetadata m;
                   call_updateState (metadata_update m)] |})
        end
    end.
Proof.
  intros a. subst a. run.
  destruct (discoverAuthorizationServerMetadata C
              (authServerUrl (state context))) as [[raw|]|t];
    try reflexivity.
  destruct (OAuthMetadataSchema_parseAsync C raw) as [m|t];
    unfold metadata_update; f_equal; same_world.
Qed.

(** At [oauth_metadata_discovery] with [authServerUrl] set, the sequencer
    runs the action. *)
Lemma executeStep_oauth_metadata_discovery (C : Collaborators)
    (url : jsstring) (s : AuthDebuggerState) (w : World) (a : URL) :
  oauthStep s = oauth_metadata_discovery ->
  authServerUrl s = Some a ->
  executeStep C url s w =
    oauth_metadata_discovery_execute C {| state := s; serverUrl := url |} w.
Proof.
  intros H Ha. rewrite executeStep_passes; rewrite H; [reflexivity|].
  cbn. rewrite Ha. reflexivity.
Qed.

(** C5. At [oauth_metadata_discovery] (guard passed): when the fetch
    yields no metadata the step raises "Failed to discover OAuth
    metadata", and when the schema rejects the metadata it raises the
    validator's error; in both runs nothing is saved and no update is
    issued, so the step does not advance.  When the metadata validates,
    the parsed metadata is saved with [saveServerMetadata], then one
    update sets [oauthMetadata] and moves the step to
    [client_registration]. *)
Theorem oauth_metadata_discovery_fatal_or_saved (C : Collaborators)
    (url : jsstring) (s : AuthDebuggerState) (w : World) (a : URL) :
  oauthStep s = oauth_metadata_discovery ->
  authServerUrl s = Some a ->
  let r := executeStep C url s w in
  (discoverAuthorizationServerMetadata C (Some a) = Returned None ->
     r = (Threw (ThrownError
                   (new_Error (lit "Failed to discover OAuth metadata"))),
          logged w [call_discoverAuthorizationServerMetadata (Some a)])
     /\ reported s (snd r) = reported s w)
  /\
  (forall raw t,
     discoverAuthorizationServerMetadata C (Some a) = Returned (Some raw) ->
     OAuthMetadataSchema_parseAsync C raw = Threw t ->
     r = (Threw t,
          logged w [call_discoverAuthorizationServerMetadata (Some a);
                    call_parseAsync])
     /\ reported s (snd r) = reported s w)
  /\
  (forall raw m,
     discoverAuthorizationServerMetadata C (Some a) = Returned (Some raw) ->
     OAuthMetadataSchema_parseAsync C raw = Returned m ->
     r = (Returned tt,
          {| provider := set_serverMetadata m (provider w);
             calls := calls w ++
               [call_discoverAuthorizationServerMetadata (Some a);
                call_parseAsync;
                call_saveServerMetadata m;
                call_updateState (metadata_update m)] |})
     /\ stored_serverMetadata (provider (snd r)) = Some m
     /\ oauthMetadata (applyUpdate s (metadata_update m)) = Some m
     /\ oauthStep (applyUpdate s (metadata_update m)) = client_registration).
Proof.
  intros Hstep Ha r. subst r.
  rewrite (@executeStep_oauth_metadata_discovery C url s w a Hstep Ha).
  rewrite oauth_metadata_discovery_execute_cases. cbn [state]. rewrite Ha.
  split; [|split].
  - intros E. rewrite E. split; [reflexivity|].
    cbn [snd]. now rewrite reported_logged.
  - intros raw t E P. rewrite E, P. split; [reflexivity|].
    cbn [snd]. now rewrite reported_logged.
  - intros raw m E P. rewrite E, P. repeat split.
Qed.

Lemma oauth_metadata_discovery_fatal_or_saved_witness :
  (* the metadata at the root of the server validates *)
  executeStep Scenario.C Scenario.server Scenario.after_prm Scenario.w0 =
    (Returned tt,
     {| provider := set_serverMetadata Scenario.as_metadata
                      Scenario.fresh_provider;
        calls :=
          [call_discoverAuthorizationServerMetadata
             (Some {| href := lit "https://mcp.example/" |});
           call_parseAsync;
           call_saveServerMetadata Scenario.as_metadata;
           call_updateState (metadata_update Scenario.as_metadata)] |})
  /\
  (* the document at [https://auth.example/] has no issuer *)
  exists t,
    executeStep Scenario.C Scenario.server
      (Scenario.after_prm_at {| href := lit "https://auth.example/" |})
      Scenario.w0 =
      (Threw t,
       logged Scenario.w0
         [call_discoverAuthorizationServerMetadata
            (Some {| href := lit "https://auth.example/" |});
          call_parseAsync]).
Proof.
  split.
  - apply (@oauth_metadata_discovery_fatal_or_saved Scenario.C
             Scenario.server Scenario.after_prm Scenario.w0
             {| href := lit "https://mcp.example/" |} eq_refl eq_refl)
      with (raw := Scenario.as_metadata); reflexivity.
  - eexists.
    apply (@oauth_metadata_discovery_fatal_or_saved Scenario.C
             Scenario.server
             (Scenario.after_prm_at {| href := lit "https://auth.example/" |})
             Scenario.w0
             {| href := lit "https://auth.example/" |} eq_refl eq_refl)
      with (raw := {| issuer := []; authorization_endpoint := [];
                      token_endpoint := []; scopes_supported := None |});
      reflexivity.
Defined.

(** ** Client registration *)

Lemma registering_template (sc : option (list jsstring)) (w : World) :
  clientMetadata (provider (registering sc w)) =
    with_scopes sc (clientMetadata (provider w)).
Proof. destruct sc; reflexivity. Qed.

Lemma registering_frame (sc : option (list jsstring)) (w : World) :
  calls (registering sc w) = calls w
  /\ stored_clientInformation (provider (registering sc w)) =
       stored_clientInformation (provider w)
  /\ stored_serverMetadata (provider (registering sc w)) =
       stored_serverMetadata (provider w).
Proof. destruct sc; repeat split. Qed.

(** Every run of [client_registration]: the scopes are dealt with first,
    then the provider is asked for client information, and only without
    it is the client registered. *)
Lemma client_registration_execute_cases (C : Collaborators)
    (context : StateMachineContext) (w : World) :
  let url := serverUrl context in
  let md := oauthMetadata (state context) in
  client_registration_execute C context w =
    match scopesSupported_of (state context) with
    | Threw t => (Threw t, w)
    | Returned sc =>
        let w1 := registering sc w in
        let template := clientMetadata (provider w1) in
        match stored_clientInformation (provider w) with
        | Some i =>
            (Returned tt, logged w1 [call_updateState (client_update i)])
        | None =>
            match registerClient C url md template with
            | Threw t =>
                (Threw t, logged w1 [call_registerClient url md template])
            | Returned i =>
                (Returned tt,
                 {| provider := set_clientInformation i (provider w1);
                    calls := calls w ++
                      [call_registerClient url md template;
                       call_saveClientInformation i;
                       call_updateState (client_update i)] |})
            end
        end
    end.
Proof.
  intros url md. subst url md.
  destruct w as [[cm ru sm [i|] cv tk] cs].
  all: run; destruct (scopesSupported_of (state context)) as [[l|]|t];
    try reflexivity; unfold registering, with_template, logged, client_update;
    simpl.
  all: try (repeat rewrite <- app_assoc; reflexivity).
  all: match goal with
    | |- context [registerClient ?c ?u ?m ?t] =>
        destruct (registerClient c u m t)
    end; simpl; repeat rewrite <- app_assoc; reflexivity.
Qed.

(** With [oauthMetadata] set, reading the supported scopes returns. *)
Lemma scopesSupported_of_returns (s : AuthDebuggerState) (md : OAuthMetadata) :
  oauthMetadata s = Some md ->
  exists sc, scopesSupported_of s = Returned sc.
Proof.
  intros H. unfold scopesSupported_of. rewrite H.
  destruct (resourceMetadata s) as [[r a [l|]]|]; eexists; reflexivity.
Qed.

Lemma executeStep_client_registration (C : Collaborators)
    (url : jsstring) (s : AuthDebuggerState) (w : World)
    (md : OAuthMetadata) :
  oauthStep s = client_registration ->
  oauthMetadata s = Some md ->
  executeStep C url s w =
    client_registration_execute C {| state := s; serverUrl := url |} w.
Proof.
  intros H Hmd. rewrite executeStep_passes; rewrite H; [reflexivity|].
  cbn. rewrite Hmd. reflexivity.
Qed.

(** C6. At [client_registration] (guard passed), once the scopes [sc]
    have been dealt with: if the provider holds client information [i],
    the only call made is the update, which sets [oauthClientInfo] to [i]
    and moves the step to [authorization_redirect]; [registerClient] and
    [saveClientInformation] are not called and the stored information
    stays [i].  If it holds none and [registerClient] returns [i], the
    calls are [registerClient], [saveClientInformation i] and the same
    update, and the provider now stores [i]. *)
Theorem client_registration_static_or_dynamic (C : Collaborators)
    (url : jsstring) (s : AuthDebuggerState) (w : World)
    (md : OAuthMetadata) :
  oauthStep s = client_registration ->
  oauthMetadata s = Some md ->
  exists sc,
    scopesSupported_of s = Returned sc /\
    let w1 := registering sc w in
    let template := clientMetadata (provider w1) in
    let r := executeStep C url s w in
    (forall i,
       stored_clientInformation (provider w) = Some i ->
       r = (Returned tt, logged w1 [call_updateState (client_update i)])
       /\ calls (snd r) = calls w ++ [call_updateState (client_update i)]
       /\ stored_clientInformation (provider (snd r)) = Some i
       /\ oauthClientInfo (applyUpdate s (client_update i)) = Some i
       /\ oauthStep (applyUpdate s (client_update i)) =
            authorization_redirect)
    /\
    (forall i,
       stored_clientInformation (provider w) = None ->
       registerClient C url (Some md) template = Returned i ->
       r = (Returned tt,
            {| provider := set_clientInformation i (provider w1);
               calls := calls w ++
                 [call_registerClient url (Some md) template;
                  call_saveClientInformation i;
                  call_updateState (client_update i)] |})
       /\ stored_clientInformation (provider (snd r)) = Some i
       /\ oauthClientInfo (applyUpdate s (client_update i)) = Some i
       /\ oauthStep (applyUpdate s (client_update i)) =
            authorization_redirect).
Proof.
  intros Hstep Hmd.
  destruct (scopesSupported_of_returns s Hmd) as [sc Hsc].
  exists sc. split; [exact Hsc|].
  intros w1 template r. subst r template w1.
  rewrite (@executeStep_client_registration C url s w md Hstep Hmd).
  rewrite client_registration_execute_cases.
  cbn [state serverUrl]. rewrite Hsc, Hmd. cbv zeta.
  split; intros i Hi.
  - rewrite Hi. cbn [snd logged provider calls].
    destruct (registering_frame sc w) as (Hc & Hs & _).
    rewrite Hc, Hs. repeat split. exact Hi.
  - intros Hr. rewrite Hi, Hr. repeat split.
Qed.

Lemma client_registration_static_or_dynamic_witness :
  (* static credentials: reused, nothing registered or saved *)
  executeStep Scenario.C Scenario.server Scenario.after_metadata
    Scenario.static_world =
    (Returned tt,
     logged (registering (Some [lit "mcp"]) Scenario.static_world)
       [call_updateState (client_update Scenario.registered)])
  /\
  (* no credentials: client [abc] is registered and saved *)
  calls (snd (executeStep Scenario.C Scenario.server Scenario.after_metadata
                Scenario.w0)) =
    [call_registerClient Scenario.server (Some Scenario.as_metadata)
       (assign_scope (lit "mcp") (clientMetadata Scenario.fresh_provider));
     call_saveClientInformation Scenario.registered;
     call_updateState (client_update Scenario.registered)].
Proof.
  destruct (@client_registration_static_or_dynamic Scenario.C Scenario.server
              Scenario.after_metadata Scenario.static_world
              Scenario.as_metadata eq_refl eq_refl) as (sc & Hsc & Hst & _).
  destruct (@client_registration_static_or_dynamic Scenario.C Scenario.server
              Scenario.after_metadata Scenario.w0
              Scenario.as_metadata eq_refl eq_refl) as (sc' & Hsc' & _ & Hdy).
  injection Hsc as <-. injection Hsc' as <-.
  split.
  - apply (Hst Scenario.registered eq_refl).
  - destruct (Hdy Scenario.registered eq_refl eq_refl) as [-> _].
    reflexivity.
Defined.

(** ** The registration template *)

(** C9. When there are supported scopes [l], [client_registration]
    assigns their space-joined string to [scope] on the provider's own
    [clientMetadata] object, before it asks the provider for client
    information.  So the template is left mutated in every run: when
    static credentials exist and registration is skipped, when
    [registerClient] returns, and when [registerClient] throws; and
    [registerClient] is passed the mutated template. *)
Theorem client_registration_mutates_template (C : Collaborators)
    (context : StateMachineContext) (w : World) (l : list jsstring) :
  scopesSupported_of (state context) = Returned (Some l) ->
  let url := serverUrl context in
  let md := oauthMetadata (state context) in
  let r := client_registration_execute C context w in
  let assigned :=
    assign_scope (join (lit " ") l) (clientMetadata (provider w)) in
  clientMetadata (provider (snd r)) = assigned
  /\ scope (clientMetadata (provider (snd r))) = Some (join (lit " ") l)
  /\ (forall i,
        stored_clientInformation (provider w) = Some i ->
        r = (Returned tt,
             logged (with_template assigned w)
               [call_updateState (client_update i)]))
  /\ (forall t,
        stored_clientInformation (provider w) = None ->
        registerClient C url md assigned = Threw t ->
        r = (Threw t,
             logged (with_template assigned w)
               [call_registerClient url md assigned]))
  /\ (forall i,
        stored_clientInformation (provider w) = None ->
        registerClient C url md assigned = Returned i ->
        fst r = Returned tt
        /\ calls (snd r) = calls w ++
             [call_registerClient url md assigned;
              call_saveClientInformation i;
              call_updateState (client_update i)]).
Proof.
  intros Hsc url md r assigned. subst r.
  rewrite client_registration_execute_cases. rewrite Hsc.
  cbv zeta. fold url md.
  change (clientMetadata (provider (registering (Some l) w)))
    with assigned.
  change (registering (Some l) w) with (with_template assigned w).
  assert (Hall :
    clientMetadata
      (provider
         (snd
            match stored_clientInformation (provider w) with
            | Some i =>
                (Returned tt,
                 logged (with_template assigned w)
                   [call_updateState (client_update i)])
            | None =>
                match registerClient C url md assigned with
                | Returned i =>
                    (Returned tt,
                     {| provider :=
                          set_clientInformation i
                            (provider (with_template assigned w));
                        calls := calls w ++
                          [call_registerClient url md assigned;
                           call_saveClientInformation i;
                           call_updateState (client_update i)] |})
                | Threw t =>
                    (Threw t,
                     logged (with_template assigned w)
                       [call_registerClient url md assigned])
                end
            end)) = assigned).
  { destruct (stored_clientInformation (provider w)); [reflexivity|].
    destruct (registerClient C url md assigned); reflexivity. }
  split; [exact Hall|]. split; [rewrite Hall; reflexivity|].
  split; [|split].
  - intros i Hi. rewrite Hi. reflexivity.
  - intros t Hi Hr. rewrite Hi, Hr. reflexivity.
  - intros i Hi Hr. rewrite Hi, Hr. split; reflexivity.
Qed.

Lemma client_registration_mutates_template_witness :
  let context := {| state := Scenario.after_metadata_with_prm;
                    serverUrl := Scenario.prm_server |} in
  scopesSupported_of (state context) =
    Returned (Some [lit "read"; lit "write"])
  /\
  (* static credentials exist: registration skipped, template mutated *)
  (fst (client_registration_execute Scenario.C context
          Scenario.static_world) = Returned tt
   /\ scope (clientMetadata
               (provider
                  (snd (client_registration_execute Scenario.C context
                          Scenario.static_world)))) =
        Some (lit "read write"))
  /\
  (* registration is refused: the step raises, template mutated *)
  (raised (fst (client_registration_execute Scenario.C context
                  Scenario.w0)) = true
   /\ scope (clientMetadata
               (provider
                  (snd (client_registration_execute Scenario.C context
                          Scenario.w0)))) =
        Some (lit "read write")).
Proof.
  split; [reflexivity|]. split.
  - split; [reflexivity|].
    apply (@client_registration_mutates_template Scenario.C
             {| state := Scenario.after_metadata_with_prm;
                serverUrl := Scenario.prm_server |}
             Scenario.static_world [lit "read"; lit "write"] eq_refl).
  - split; [reflexivity|].
    apply (@client_registration_mutates_template Scenario.C
             {| state := Scenario.after_metadata_with_prm;
                serverUrl := Scenario.prm_server |}
             Scenario.w0 [lit "read"; lit "write"] eq_refl).
Defined.

(** ** Guards *)

(** A guard other than that of [complete] returns the conjunction of the
    truthiness of its declared fields, and leaves the world alone. *)
Lemma guard_verdict (C : Collaborators) (step : OAuthStep)
    (c : StateMachineContext) (w : World) :
  step <> complete ->
  canTransition (oauthTransitions C step) c w =
    (Returned (forallb (fun f => truthy f c w) (declared step)), w).
Proof.
  intros Hstep. destruct step; try contradiction; run;
    cbn [declared forallb truthy]; rewrite ?andb_true_r; try reflexivity.
  destruct (code_truthy (authorizationCode (state c))); [|reflexivity].
  destruct (stored_serverMetadata (provider w)); reflexivity.
Qed.

Lemma agree_truthy (f : Field)
    (c1 : StateMachineContext) (w1 : World)
    (c2 : StateMachineContext) (w2 : World) :
  agree f c1 w1 c2 w2 -> truthy f c1 w1 = truthy f c2 w2.
Proof.
  destruct f; cbn [agree truthy]; intros E; rewrite E; reflexivity.
Qed.

(** C7. For every step other than [complete], the verdict of the guard
    is the same in any two contexts that agree on the declared
    precondition fields of the step, and the guard passes as soon as
    those fields are truthy, whatever the rest of the Flow State, the
    server URL and the rest of the provider. *)
Theorem guards_read_declared_fields (C : Collaborators) (step : OAuthStep) :
  step <> complete ->
  (forall c1 w1 c2 w2,
     Forall (fun f => agree f c1 w1 c2 w2) (declared step) ->
     fst (canTransition (oauthTransitions C step) c1 w1) =
     fst (canTransition (oauthTransitions C step) c2 w2))
  /\
  (forall c w,
     Forall (fun f => truthy f c w = true) (declared step) ->
     canTransition (oauthTransitions C step) c w = (Returned true, w)).
Proof.
  intros Hstep. split.
  - intros c1 w1 c2 w2 H. rewrite !guard_verdict by exact Hstep.
    cbn [fst]. f_equal.
    induction H as [|f l Hf _ IH]; cbn [forallb]; [reflexivity|].
    now rewrite (agree_truthy _ _ _ _ _ Hf), IH.
  - intros c w H. rewrite guard_verdict by exact Hstep.
    f_equal. f_equal. apply forallb_forall.
    exact (proj1 (Forall_forall _ _) H).
Qed.

Lemma guards_read_declared_fields_witness :
  let c1 := {| state := Scenario.with_code (lit "xyz789");
               serverUrl := Scenario.server |} in
  let c2 := {| state := applyUpdate Scenario.after_metadata_with_prm
                          (upd_authorizationCode_only (lit "xyz789"));
               serverUrl := Scenario.prm_server |} in
  let w1 := Scenario.persisted_world in
  let w2 := logged
              (with_template
                 (assign_scope (lit "read write")
                    (clientMetadata (provider w1))) w1)
              [call_saveCodeVerifier (lit "verifier")] in
  token_request <> complete
  /\ canTransition (oauthTransitions Scenario.C token_request) c1 w1 =
       (Returned true, w1)
  /\ fst (canTransition (oauthTransitions Scenario.C token_request) c2 w2) =
     fst (canTransition (oauthTransitions Scenario.C token_request) c1 w1).
Proof.
  intros c1 c2 w1 w2.
  assert (Hstep : token_request <> complete) by discriminate.
  destruct (guards_read_declared_fields Scenario.C Hstep) as [Hsame Hpass].
  split; [exact Hstep|]. split.
  - apply Hpass. repeat constructor.
  - apply Hsame. repeat constructor.
Defined.

(** ** Errors and the Flow State *)

(** Closes a goal [(Threw _, _) = (Threw t, w') -> updates unchanged]. *)
Ltac no_update :=
  let H := fresh in
  intros H; inversion H; subst; clear H;
  unfold logged; cbn [calls provider];
  rewrite ?updates_of_app; cbn [updates_of];
  rewrite ?app_nil_r; reflexivity.

(** Every run of [authorization_redirect]. *)
Lemma authorization_redirect_execute_cases (C : Collaborators)
    (context : StateMachineContext) (w : World) :
  let url := serverUrl context in
  let s := state context in
  let asked := call_discoverScopes url (resourceMetadata s) in
  authorization_redirect_execute C context w =
    match discoverScopes C url (resourceMetadata s) with
    | Threw t => (Threw t, logged w [asked])
    | Returned sc =>
        let o := redirect_options C s (provider w) sc in
        match startAuthorization C url o with
        | Threw t => (Threw t, logged w [asked; call_startAuthorization url o])
        | Returned (authorizationUrl, codeVerifier) =>
            (Returned tt,
             {| provider := set_codeVerifier codeVerifier (provider w);
                calls := calls w ++
                  [asked;
                   call_startAuthorization url o;
                   call_saveCodeVerifier codeVerifier;
                   call_updateState (redirect_update authorizationUrl)] |})
        end
    end.
Proof.
  intros url s asked. subst url s asked.
  destruct w as [p cs]. run. unfold redirect_options, logged. simpl.
  destruct (discoverScopes C (serverUrl context)
              (resourceMetadata (state context))) as [sc|];
    [|reflexivity].
  match goal with
  | |- context [startAuthorization ?c ?u ?o] =>
      destruct (startAuthorization c u o) as [[a v]|]
  end; simpl; repeat rewrite <- app_assoc; reflexivity.
Qed.

(** Every run of [token_request]. *)
Lemma token_request_execute_cases (C : Collaborators)
    (context : StateMachineContext) (w : World) :
  let url := serverUrl context in
  let s := state context in
  token_request_execute C context w =
    match resource_as_URL C (resource s) with
    | Threw t => (Threw t, w)
    | Returned res =>
        let o := exchange_options s (provider w) res in
        match exchangeAuthorization C url o with
        | Threw t => (Threw t, logged w [call_exchangeAuthorization url o])
        | Returned tokens =>
            (Returned tt,
             {| provider := set_tokens tokens (provider w);
                calls := calls w ++
                  [call_exchangeAuthorization url o;
                   call_saveTokens tokens;
                   call_updateState (tokens_update tokens)] |})
        end
    end.
Proof.
  intros url s. subst url s.
  destruct w as [p cs]. run. unfold exchange_options, logged. simpl.
  destruct (resource_as_URL C (resource (state context))) as [res|];
    [|reflexivity].
  match goal with
  | |- context [exchangeAuthorization ?c ?u ?o] =>
      destruct (exchangeAuthorization c u o)
  end; simpl; repeat rewrite <- app_assoc; reflexivity.
Qed.

(** C8. For every step except [authorization_code], a run of the action
    that raises has not called [updateState]: the updates in the log, and
    with them every field of the Flow State the caller holds, are those
    from before the run.  The same holds of a whole invocation of the
    sequencer, guard included. *)
Theorem errors_issue_no_update (C : Collaborators) (step : OAuthStep) :
  step <> authorization_code ->
  (forall context w t w',
     execute (oauthTransitions C step) context w = (Threw t, w') ->
     updates_of (calls w') = updates_of (calls w)
     /\ forall s, reported s w' = reported s w)
  /\
  (forall url s w t w',
     oauthStep s = step ->
     executeStep C url s w = (Threw t, w') ->
     updates_of (calls w') = updates_of (calls w)
     /\ reported s w' = reported s w).
Proof.
  intros Hstep.
  assert (Hexec : forall context w t w',
            execute (oauthTransitions C step) context w = (Threw t, w') ->
            updates_of (calls w') = updates_of (calls w)).
  { intros context w t w'.
    destruct step; try contradiction; cbn [oauthTransitions execute].
    - rewrite prm_discovery_execute_cases. cbv zeta.
      destruct (selectResourceURL _ _ _ _); [|no_update].
      destruct (URL_new _ _ (Some _)); [|no_update].
      destruct (first_authorization_server _); [|discriminate].
      destruct (URL_new _ _ None); [discriminate | no_update].
    - rewrite oauth_metadata_discovery_execute_cases. cbv zeta.
      destruct (discoverAuthorizationServerMetadata _ _) as [[raw|]|];
        [|no_update|no_update].
      destruct (OAuthMetadataSchema_parseAsync _ raw);
        [discriminate | no_update].
    - rewrite client_registration_execute_cases. cbv zeta.
      destruct (scopesSupported_of _) as [sc|]; [|no_update].
      destruct (registering_frame sc w) as (Hc & _).
      destruct (stored_clientInformation _); [discriminate|].
      destruct (registerClient _ _ _ _); [discriminate|].
      intros H; inversion H; subst; clear H.
      unfold logged; cbn [calls]. rewrite Hc, updates_of_app.
      cbn [updates_of]. apply app_nil_r.
    - rewrite authorization_redirect_execute_cases. cbv zeta.
      destruct (discoverScopes _ _ _); [|no_update].
      destruct (startAuthorization _ _ _) as [[au ve]|];
        [discriminate | no_update].
    - rewrite token_request_execute_cases. cbv zeta.
      destruct (resource_as_URL _ _); [|no_update].
      destruct (exchangeAuthorization _ _ _); [discriminate | no_update].
    - discriminate. }
  split.
  - intros context w t w' H. pose proof (Hexec _ _ _ _ H) as E.
    split; [exact E|]. intros s. unfold reported. now rewrite E.
  - intros url s w t w' Hs H. subst step.
    assert (E : updates_of (calls w') = updates_of (calls w)).
    { destruct (OAuthStep_eq_dec (oauthStep s) complete) as [Hc|Hc].
      - rewrite executeStep_blocked in H by (rewrite Hc; reflexivity).
        now inversion H.
      - pose proof (@guard_verdict C (oauthStep s)
                      {| state := s; serverUrl := url |} w Hc) as G.
        destruct (forallb _ (declared (oauthStep s))).
        + rewrite executeStep_passes in H by exact G.
          exact (Hexec _ _ _ _ H).
        + rewrite executeStep_blocked in H by exact G. now inversion H. }
    split; [exact E|]. unfold reported. now rewrite E.
Qed.

Lemma errors_issue_no_update_witness :
  let context := {| state := Scenario.after_metadata_with_prm;
                    serverUrl := Scenario.prm_server |} in
  let failure := ThrownError
                   (new_Error (lit "Dynamic client registration failed")) in
  let w' := logged (registering (Some [lit "read"; lit "write"]) Scenario.w0)
              [call_registerClient Scenario.prm_server
                 (Some Scenario.as_metadata)
                 (assign_scope (lit "read write")
                    (clientMetadata Scenario.fresh_provider))] in
  client_registration <> authorization_code
  /\ execute (oauthTransitions Scenario.C client_registration) context
       Scenario.w0 = (Threw failure, w')
  /\ updates_of (calls w') = updates_of (calls Scenario.w0)
  /\ reported (state context) w' = reported (state context) Scenario.w0.
Proof.
  intros context failure w'.
  assert (Hstep : client_registration <> authorization_code) by discriminate.
  assert (Hrun : execute (oauthTransitions Scenario.C client_registration)
                   context Scenario.w0 = (Threw failure, w')) by reflexivity.
  destruct (errors_issue_no_update Scenario.C Hstep) as [Hexec _].
  destruct (Hexec context Scenario.w0 failure w' Hrun) as [E R].
  split; [exact Hstep|]. split; [exact Hrun|]. split; [exact E | apply R].
Defined.

(** ** The end-to-end scenario *)

(** Four invocations take the flow from [prm_discovery] to
    [authorization_code], where the sequencer insists on a code; with the
    code [xyz789] two more reach [complete], and a further invocation is
    a guard violation. *)
Example end_to_end :
  let '(r4, s4, p4) := Scenario.invoke_n 4 Scenario.initial
                         Scenario.fresh_provider in
  let '(r5, s5, p5) := Scenario.invoke s4 p4 in
  let supplied := applyUpdate s5 (upd_authorizationCode_only (lit "xyz789")) in
  let '(r7, s7, p7) := Scenario.invoke_n 2 supplied p5 in
  let '(r8, s8, p8) := Scenario.invoke s7 p7 in
  r4 = Returned tt
  /\ oauthStep s4 = authorization_code
  /\ resourceMetadataError s4 = Some (new_Error (lit "404"))
  /\ authServerUrl s4 = Some {| href := lit "https://mcp.example/" |}
  /\ oauthClientInfo s4 = Some Scenario.registered
  /\ stored_codeVerifier p4 = Some (lit "verifier")
  /\ r5 = Threw (ThrownError (new_Error (lit "Authorization code required")))
  /\ oauthStep s5 = authorization_code
  /\ r7 = Returned tt
  /\ validationError s7 = None
  /\ oauthStep s7 = complete
  /\ oauthTokens s7 = Some Scenario.tokens
  /\ stored_tokens p7 = Some Scenario.tokens
  /\ r8 = Threw (guard_violation complete)
  /\ s8 = s7.
Proof. vm_compute. repeat split. Qed.

(** * Further properties of the sequencer *)

(** ** Guard violations *)

Lemma preconditions_met_iff (step : OAuthStep) (c : StateMachineContext)
    (w : World) :
  preconditions_met step c w = true <->
  step <> complete /\ forall f, In f (declared step) -> truthy f c w = true.
Proof.
  destruct step; cbn [preconditions_met];
    try (rewrite forallb_forall; split;
         [intros H; split; [discriminate | exact H] | intros [_ H]; exact H]).
  split; [discriminate | intros [H _]; contradiction].
Qed.

(** The sequencer, by the verdict of the guard. *)
Lemma executeStep_by_guard (C : Collaborators) (url : jsstring)
    (s : AuthDebuggerState) (w : World) :
  let c := {| state := s; serverUrl := url |} in
  executeStep C url s w =
    if preconditions_met (oauthStep s) c w
    then execute (oauthTransitions C (oauthStep s)) c w
    else (Threw (guard_violation (oauthStep s)), w).
Proof.
  intros c.
  destruct (OAuthStep_eq_dec (oauthStep s) complete) as [E|E].
  - rewrite executeStep_blocked by (rewrite E; reflexivity).
    rewrite E. reflexivity.
  - pose proof (@guard_verdict C (oauthStep s) c w E) as G.
    assert (P : preconditions_met (oauthStep s) c w =
                forallb (fun f => truthy f c w) (declared (oauthStep s)))
      by (destruct (oauthStep s); try reflexivity; contradiction).
    rewrite P.
    destruct (forallb _ (declared (oauthStep s))).
    + now rewrite executeStep_passes by exact G.
    + now rewrite executeStep_blocked by exact G.
Qed.

Lemma step_name_injective (a b : OAuthStep) :
  step_name a = step_name b -> a = b.
Proof.
  destruct a, b; intros H; try reflexivity; vm_compute in H; discriminate H.
Qed.

(** X1. An invocation at [complete], or with a declared precondition
    field of the current step falsy, raises the guard violation that
    names the step and does nothing else: the world (provider and call
    log) is as before, so no collaborator is called.  With the
    preconditions met the invocation is the action of the step.  The
    error tells the steps apart. *)
Theorem sequencer_blocks_unmet_preconditions (C : Collaborators)
    (url : jsstring) (s : AuthDebuggerState) (w : World) :
  let c := {| state := s; serverUrl := url |} in
  ((oauthStep s = complete
    \/ exists f, In f (declared (oauthStep s)) /\ truthy f c w = false) ->
   executeStep C url s w = (Threw (guard_violation (oauthStep s)), w))
  /\
  (oauthStep s <> complete ->
   (forall f, In f (declared (oauthStep s)) -> truthy f c w = true) ->
   executeStep C url s w = execute (oauthTransitions C (oauthStep s)) c w)
  /\
  (forall a b, guard_violation a = guard_violation b -> a = b).
Proof.
  intros c. split; [|split].
  - intros H. rewrite executeStep_by_guard. fold c.
    destruct (preconditions_met (oauthStep s) c w) eqn:P; [|reflexivity].
    apply preconditions_met_iff in P. destruct P as [Hc Hall].
    destruct H as [H|(f & Hin & Hf)]; [contradiction|].
    rewrite (Hall f Hin) in Hf. discriminate.
  - intros Hc Hall. rewrite executeStep_by_guard. fold c.
    rewrite (proj2 (preconditions_met_iff (oauthStep s) c w) (conj Hc Hall)).
    reflexivity.
  - intros a b H. unfold guard_violation, new_Error in H.
    injection H as H. now apply step_name_injective.
Qed.

Lemma sequencer_blocks_unmet_preconditions_witness :
  (* registration asked for before the metadata is there *)
  executeStep Scenario.C Scenario.server
    (Scenario.at_step client_registration) Scenario.w0 =
    (Threw (ThrownError
              (new_Error (lit "Cannot transition from client_registration"))),
     Scenario.w0)
  /\
  (* with the metadata, the action runs *)
  executeStep Scenario.C Scenario.server Scenario.after_metadata Scenario.w0 =
    client_registration_execute Scenario.C
      {| state := Scenario.after_metadata; serverUrl := Scenario.server |}
      Scenario.w0.
Proof.
  split.
  - apply (sequencer_blocks_unmet_preconditions Scenario.C Scenario.server
             (Scenario.at_step client_registration) Scenario.w0).
    right. exists field_oauthMetadata. split; [left|]; reflexivity.
  - apply (sequencer_blocks_unmet_preconditions Scenario.C Scenario.server
             Scenario.after_metadata Scenario.w0).
    + discriminate.
    + intros f [<-|[]]. reflexivity.
Defined.

(** ** The authorization redirect *)

(** X2. At [authorization_redirect] (guard passed) the scope is asked
    for first; if that throws, [startAuthorization] is not called.
    [startAuthorization] receives the metadata and client information of
    the Flow State, the redirect target of the provider, the discovered
    scope, the generated state value and the resource.  If it throws,
    nothing is saved and no update is issued.  If it returns, the code
    verifier is saved with [saveCodeVerifier], then one update stores
    the authorization URL and moves the step to [authorization_code]. *)
Theorem authorization_redirect_starts_authorization (C : Collaborators)
    (url : jsstring) (s : AuthDebuggerState) (w : World)
    (md : OAuthMetadata) (ci : OAuthClientInformation) :
  oauthStep s = authorization_redirect ->
  oauthMetadata s = Some md ->
  oauthClientInfo s = Some ci ->
  let asked := call_discoverScopes url (resourceMetadata s) in
  let r := executeStep C url s w in
  (forall t,
     discoverScopes C url (resourceMetadata s) = Threw t ->
     r = (Threw t, logged w [asked]))
  /\
  (forall sc,
     discoverScopes C url (resourceMetadata s) = Returned sc ->
     let o := {| sa_metadata := Some md;
                 sa_clientInformation := Some ci;
                 sa_redirectUrl := redirectUrl (provider w);
                 sa_scope := sc;
                 sa_state := generateOAuthState C;
                 sa_resource := resource s |} in
     (forall t,
        startAuthorization C url o = Threw t ->
        r = (Threw t, logged w [asked; call_startAuthorization url o]))
     /\
     (forall au ve,
        startAuthorization C url o = Returned (au, ve) ->
        r = (Returned tt,
             {| provider := set_codeVerifier ve (provider w);
                calls := calls w ++
                  [asked;
                   call_startAuthorization url o;
                   call_saveCodeVerifier ve;
                   call_updateState (redirect_update au)] |})
        /\ stored_codeVerifier (provider (snd r)) = Some ve
        /\ authorizationUrl (applyUpdate s (redirect_update au)) = Some au
        /\ oauthStep (applyUpdate s (redirect_update au)) =
             authorization_code)).
Proof.
  intros Hstep Hmd Hci asked r. subst r asked.
  rewrite executeStep_by_guard, Hstep.
  cbn [preconditions_met declared forallb truthy state oauthTransitions
       execute].
  rewrite Hmd, Hci. cbn [is_set andb].
  rewrite authorization_redirect_execute_cases.
  cbn [state serverUrl]. unfold redirect_options. rewrite Hmd, Hci.
  split.
  - intros t E. rewrite E. reflexivity.
  - intros sc E. rewrite E. cbv zeta. split.
    + intros t S. rewrite S. reflexivity.
    + intros au ve S. rewrite S. repeat split.
Qed.

Lemma authorization_redirect_starts_authorization_witness :
  let s := applyUpdate Scenario.after_metadata
             (client_update Scenario.registered) in
  stored_codeVerifier
    (provider (snd (executeStep Scenario.C Scenario.server s
                      Scenario.static_world))) = Some (lit "verifier")
  /\ fst (executeStep Scenario.C Scenario.server s Scenario.static_world) =
       Returned tt.
Proof.
  intros s.
  destruct (@authorization_redirect_starts_authorization Scenario.C
              Scenario.server s Scenario.static_world
              Scenario.as_metadata Scenario.registered
              eq_refl eq_refl eq_refl) as [_ H].
  destruct (H None eq_refl) as [_ H'].
  destruct (H' {| href := lit "https://mcp.example/authorize?state=f00d" |}
               (lit "verifier") eq_refl) as (E & V & _).
  split; [exact V|]. rewrite E. reflexivity.
Defined.

(** ** The token request *)

(** At [token_request] with the guard passed, the sequencer runs the
    action. *)
Lemma executeStep_token_request (C : Collaborators) (url : jsstring)
    (s : AuthDebuggerState) (w : World) :
  oauthStep s = token_request ->
  code_truthy (authorizationCode s) = true ->
  is_set (stored_serverMetadata (provider w)) = true ->
  is_set (stored_clientInformation (provider w)) = true ->
  executeStep C url s w =
    token_request_execute C {| state := s; serverUrl := url |} w.
Proof.
  intros Hstep Hcode Hmd Hci.
  rewrite executeStep_by_guard, Hstep.
  cbn [preconditions_met declared forallb truthy state oauthTransitions
       execute].
  now rewrite Hcode, Hmd, Hci.
Qed.

(** X3. At [token_request] (guard passed, resource usable),
    [exchangeAuthorization] receives the server metadata, the client
    information and the code verifier that the provider persisted (not
    those of the Flow State), the provider's redirect target, and the
    authorization code and resource of the Flow State.  If it throws,
    no token is saved and no update is issued.  If it returns, the tokens
    are saved with [saveTokens], then one update stores them and moves
    the step to [complete]. *)
Theorem token_request_exchanges_persisted_credentials (C : Collaborators)
    (url : jsstring) (s : AuthDebuggerState) (w : World)
    (md : OAuthMetadata) (ci : OAuthClientInformation) (res : option URL) :
  oauthStep s = token_request ->
  code_truthy (authorizationCode s) = true ->
  stored_serverMetadata (provider w) = Some md ->
  stored_clientInformation (provider w) = Some ci ->
  resource_as_URL C (resource s) = Returned res ->
  let o := {| ex_metadata := Some md;
              ex_clientInformation := Some ci;
              ex_authorizationCode := authorizationCode s;
              ex_codeVerifier := stored_codeVerifier (provider w);
              ex_redirectUri := redirectUrl (provider w);
              ex_resource := res |} in
  let r := executeStep C url s w in
  (forall t,
     exchangeAuthorization C url o = Threw t ->
     r = (Threw t, logged w [call_exchangeAuthorization url o]))
  /\
  (forall tokens,
     exchangeAuthorization C url o = Returned tokens ->
     r = (Returned tt,
          {| provider := set_tokens tokens (provider w);
             calls := calls w ++
               [call_exchangeAuthorization url o;
                call_saveTokens tokens;
                call_updateState (tokens_update tokens)] |})
     /\ stored_tokens (provider (snd r)) = Some tokens
     /\ oauthTokens (applyUpdate s (tokens_update tokens)) = Some tokens
     /\ oauthStep (applyUpdate s (tokens_update tokens)) = complete).
Proof.
  intros Hstep Hcode Hmd Hci Hres o r. subst r o.
  rewrite executeStep_token_request;
    [| assumption | assumption | now rewrite Hmd | now rewrite Hci].
  rewrite token_request_execute_cases.
  cbn [state serverUrl]. rewrite Hres. unfold exchange_options.
  rewrite Hmd, Hci. cbv zeta. split.
  - intros t E. rewrite E. reflexivity.
  - intros tokens E. rewrite E. repeat split.
Qed.

Lemma token_request_exchanges_persisted_credentials_witness :
  let s := applyUpdate (Scenario.with_code (lit "xyz789")) code_accepted in
  oauthStep s = token_request
  /\ oauthMetadata s = None
  /\ executeStep Scenario.C Scenario.server s Scenario.persisted_world =
       (Returned tt,
        {| provider := set_tokens Scenario.tokens
                         (provider Scenario.persisted_world);
           calls :=
             [call_exchangeAuthorization Scenario.server
                {| ex_metadata := Some Scenario.as_metadata;
                   ex_clientInformation := Some Scenario.registered;
                   ex_authorizationCode := Some (lit "xyz789");
                   ex_codeVerifier := Some (lit "verifier");
                   ex_redirectUri :=
                     lit "http://localhost:6274/oauth/callback/debug";
                   ex_resource := None |};
              call_saveTokens Scenario.tokens;
              call_updateState (tokens_update Scenario.tokens)] |}).
Proof.
  intros s. split; [reflexivity|]. split; [reflexivity|].
  destruct (@token_request_exchanges_persisted_credentials Scenario.C
              Scenario.server s Scenario.persisted_world
              Scenario.as_metadata Scenario.registered None
              eq_refl eq_refl eq_refl eq_refl eq_refl) as [_ H].
  apply (H Scenario.tokens eq_refl).
Defined.

(** X4. The resource of the Flow State reaches the token exchange as a
    [URL]: a [URL] object as it is, a non-empty string through
    [new URL], nothing for [null] or the empty string.  When the string
    is not a URL, the invocation at [token_request] raises the
    constructor's error before any call: no exchange is attempted,
    nothing is saved and no update is issued. *)
Theorem token_request_resource_conversion (C : Collaborators)
    (url : jsstring) (s : AuthDebuggerState) (w : World) :
  oauthStep s = token_request ->
  code_truthy (authorizationCode s) = true ->
  is_set (stored_serverMetadata (provider w)) = true ->
  is_set (stored_clientInformation (provider w)) = true ->
  let r := executeStep C url s w in
  let sent res :=
    call_exchangeAuthorization url
      {| ex_metadata := stored_serverMetadata (provider w);
         ex_clientInformation := stored_clientInformation (provider w);
         ex_authorizationCode := authorizationCode s;
         ex_codeVerifier := stored_codeVerifier (provider w);
         ex_redirectUri := redirectUrl (provider w);
         ex_resource := res |} in
  (forall str t,
     resource s = Some (ResourceString str) -> str <> [] ->
     URL_new C str None = Threw t ->
     r = (Threw t, w))
  /\
  (forall str u,
     resource s = Some (ResourceString str) -> str <> [] ->
     URL_new C str None = Returned u ->
     exists rest, calls (snd r) = calls w ++ sent (Some u) :: rest)
  /\
  (forall u,
     resource s = Some (ResourceURL u) ->
     exists rest, calls (snd r) = calls w ++ sent (Some u) :: rest)
  /\
  (resource s = None \/ resource s = Some (ResourceString []) ->
   exists rest, calls (snd r) = calls w ++ sent None :: rest).
Proof.
  intros Hstep Hcode Hmd Hci r sent. subst r.
  rewrite executeStep_token_request by assumption.
  rewrite token_request_execute_cases. cbn [state serverUrl].
  unfold exchange_options. cbv zeta.
  assert (Hsent : forall res,
    exists rest,
      calls (snd
        match exchangeAuthorization C url
                {| ex_metadata := stored_serverMetadata (provider w);
                   ex_clientInformation :=
                     stored_clientInformation (provider w);
                   ex_authorizationCode := authorizationCode s;
                   ex_codeVerifier := stored_codeVerifier (provider w);
                   ex_redirectUri := redirectUrl (provider w);
                   ex_resource := res |} with
        | Returned tokens =>
            (Returned tt,
             {| provider := set_tokens tokens (provider w);
                calls := calls w ++
                  [sent res; call_saveTokens tokens;
                   call_updateState (tokens_update tokens)] |})
        | Threw t => (Threw t, logged w [sent res])
        end) = calls w ++ sent res :: rest).
  { intros res. destruct (exchangeAuthorization C url _);
      eexists; reflexivity. }
  split; [|split; [|split]].
  - intros str t Hr Hne Hu. rewrite Hr. cbn [resource_as_URL resource_truthy].
    destruct str; [contradiction|]. cbn [string_truthy]. rewrite Hu.
    reflexivity.
  - intros str u Hr Hne Hu. rewrite Hr. cbn [resource_as_URL resource_truthy].
    destruct str; [contradiction|]. cbn [string_truthy]. rewrite Hu.
    apply Hsent.
  - intros u Hr. rewrite Hr. cbn [resource_as_URL resource_truthy].
    apply Hsent.
  - intros [Hr|Hr]; rewrite Hr;
      cbn [resource_as_URL resource_truthy string_truthy]; apply Hsent.
Qed.

Lemma token_request_resource_conversion_witness :
  let s' := {| oauthStep := token_request;
               resourceMetadata := None;
               resourceMetadataError := None;
               resource := Some (ResourceString (lit "mcp.example"));
               authServerUrl := None;
               oauthMetadata := None;
               oauthClientInfo := None;
               authorizationUrl := None;
               authorizationCode := Some (lit "xyz789");
               validationError := None;
               oauthTokens := None |} in
  executeStep Scenario.C Scenario.server s' Scenario.persisted_world =
    (Threw Scenario.invalid_URL, Scenario.persisted_world).
Proof.
  intros s'.
  apply (@token_request_resource_conversion Scenario.C Scenario.server s'
           Scenario.persisted_world eq_refl eq_refl eq_refl eq_refl)
    with (str := lit "mcp.example"); [reflexivity | discriminate | reflexivity].
Defined.

(** X5. What [token_request] reads of the Flow State is the
    authorization code and the resource: two Flow States at
    [token_request] that agree on these two fields give the same
    invocation (same completion, same calls, same provider), whatever
    their other fields.  The rest comes from the provider, which is what
    lets the flow resume after the redirect. *)
Theorem token_request_reads_code_and_resource (C : Collaborators)
    (url : jsstring) (s1 s2 : AuthDebuggerState) (w : World) :
  oauthStep s1 = token_request ->
  oauthStep s2 = token_request ->
  authorizationCode s1 = authorizationCode s2 ->
  resource s1 = resource s2 ->
  executeStep C url s1 w = executeStep C url s2 w.
Proof.
  intros H1 H2 Hcode Hres.
  rewrite !executeStep_by_guard, H1, H2.
  cbn [preconditions_met declared forallb truthy state oauthTransitions
       execute].
  rewrite !token_request_execute_cases. cbn [state serverUrl].
  unfold exchange_options. now rewrite Hcode, Hres.
Qed.

Lemma token_request_reads_code_and_resource_witness :
  let s1 := applyUpdate (Scenario.with_code (lit "xyz789")) code_accepted in
  let s2 := applyUpdate
              (applyUpdate Scenario.after_metadata
                 (upd_authorizationCode_only (lit "xyz789")))
              (tokens_update Scenario.tokens) in
  let s2' := applyUpdate s2 code_accepted in
  oauthMetadata s1 <> oauthMetadata s2'
  /\ executeStep Scenario.C Scenario.server s1 Scenario.persisted_world =
     executeStep Scenario.C Scenario.server s2' Scenario.persisted_world.
Proof.
  intros s1 s2 s2'. split; [discriminate|].
  apply (@token_request_reads_code_and_resource Scenario.C Scenario.server
           s1 s2' Scenario.persisted_world); reflexivity.
Defined.

(** ** The pipeline as a whole *)

(** Every run of [authorization_code]. *)
Lemma authorization_code_execute_cases
    (context : StateMachineContext) (w : World) :
  authorization_code_execute context w =
    if code_is_blank (authorizationCode (state context))
    then (Threw (ThrownError (new_Error (lit "Authorization code required"))),
          logged w
            [call_updateState
               (only_validationError
                  (Some (lit "You need to provide an authorization code")))])
    else (Returned tt, logged w [call_updateState code_accepted]).
Proof.
  run. destruct (code_is_blank (authorizationCode (state context)));
    reflexivity.
Qed.

(** Splits on a [match] of the goal. *)
Ltac break_match :=
  match goal with
  | |- context [match ?x with _ => _ end] => destruct x eqn:?
  end.

(** Case analysis of an invocation at [s]: first the guard, then the
    step, then the completions of the calls the action makes. *)
Ltac by_cases s :=
  rewrite executeStep_by_guard;
  let P := fresh "P" in
  destruct (preconditions_met (oauthStep s) _ _) eqn:P;
  [ let E := fresh "Hstep" in
    destruct (oauthStep s) eqn:E; cbn [oauthTransitions execute];
    [ rewrite prm_discovery_execute_cases
    | rewrite oauth_metadata_discovery_execute_cases
    | rewrite client_registration_execute_cases
    | rewrite authorization_redirect_execute_cases
    | rewrite authorization_code_execute_cases
    | rewrite token_request_execute_cases
    | discriminate P ];
    cbv zeta; cbn [state serverUrl];
    unfold registering, with_template, logged
  | ].

(** Reads an equation between runs. *)
Ltac settle_run :=
  let H := fresh in
  intros H; inversion H; subst; clear H.

(** Splits on every [match] of the goal, completions first. *)
Ltac break_run :=
  repeat (match goal with
          | |- context [match raised ?x with _ => _ end] => destruct x
          | |- context [match ?x with _ => _ end] => destruct x eqn:?
          end; cbn [raised]).

(** The updates of one invocation and the step they leave. *)
Lemma invocation_step (C : Collaborators) (url : jsstring)
    (s : AuthDebuggerState) (w : World) (r : completion unit) (w' : World) :
  executeStep C url s w = (r, w') ->
  exists us,
    updates_of (calls w') = updates_of (calls w) ++ us
    /\ oauthStep (fold_left applyUpdate us s) =
         if raised r then oauthStep s else next_step (oauthStep s).
Proof.
  by_cases s.
  all: break_run; settle_run; cbn [calls raised];
    rewrite ?updates_of_app; cbn [updates_of].
  all: try (exists []; split; [now rewrite app_nil_r | cbn; congruence]).
  all: eexists; split; [reflexivity | cbn; congruence].
Qed.

Lemma step_once_step (C : Collaborators) (url : jsstring)
    (s : AuthDebuggerState) (p : Provider) :
  oauthStep (snd (fst (step_once C url s p))) =
    if raised (fst (fst (step_once C url s p)))
    then oauthStep s else next_step (oauthStep s).
Proof.
  unfold step_once, reported. cbn [fst snd].
  destruct (executeStep C url s {| provider := p; calls := [] |})
    as [r w'] eqn:E.
  destruct (invocation_step _ _ _ _ E) as (us & Hus & Hstep).
  cbn [fst snd calls updates_of app] in *. now rewrite Hus.
Qed.

Lemma iter_next_step_shift (k : nat) (x : OAuthStep) :
  Nat.iter k next_step (next_step x) = next_step (Nat.iter k next_step x).
Proof.
  induction k as [|k IH]; [reflexivity|].
  change (next_step (Nat.iter k next_step (next_step x)) =
          next_step (next_step (Nat.iter k next_step x))).
  now rewrite IH.
Qed.

(** X6. One invocation leaves the step where it was when it raises, and
    moves it to the next step of the fixed order when it returns.  So
    over any sequence of invocations, the caller going on after a raise
    as after a return and supplying authorization codes in between as
    it likes, the step has moved forward by at most one position per
    invocation, and never back. *)
Theorem step_only_moves_forward (C : Collaborators) (url : jsstring) :
  (forall s p,
     oauthStep (snd (fst (step_once C url s p))) =
       if raised (fst (fst (step_once C url s p)))
       then oauthStep s else next_step (oauthStep s))
  /\
  (forall inputs s p, exists k,
     k <= List.length inputs
     /\ oauthStep (fst (invoke_all C url inputs s p)) =
          Nat.iter k next_step (oauthStep s)).
Proof.
  split; [intros s p; apply step_once_step|].
  induction inputs as [|input rest IH]; intros s p.
  - exists 0. split; [apply le_n | reflexivity].
  - cbn [invoke_all List.length].
    set (s0 := match input with
               | Some code => applyUpdate s (upd_authorizationCode_only code)
               | None => s
               end).
    assert (E0 : oauthStep s0 = oauthStep s)
      by (subst s0; destruct input; reflexivity).
    pose proof (step_once_step C url s0 p) as H1.
    destruct (IH (snd (fst (step_once C url s0 p)))
                 (snd (step_once C url s0 p))) as (k & Hk & E).
    rewrite H1, E0 in E.
    destruct (raised (fst (fst (step_once C url s0 p)))).
    + exists k. split; [now apply le_S | exact E].
    + exists (S k). split; [now apply le_n_S|].
      rewrite E. apply iter_next_step_shift.
Qed.

(** X7. An invocation calls [updateState] at most once, and the update
    is the last call it makes: whatever it persists or requests comes
    before the caller hears of the new state.  An invocation that
    returns issues exactly one update; one that raises issues none,
    except for the blank authorization code, where the update with the
    validation message is its only call. *)
Theorem update_is_the_last_call (C : Collaborators) (url : jsstring)
    (s : AuthDebuggerState) (w : World) (r : completion unit) (w' : World) :
  executeStep C url s w = (r, w') ->
  exists l,
    calls w' = calls w ++ l
    /\ match r with
       | Returned _ =>
           exists l0 u, l = l0 ++ [call_updateState u] /\ updates_of l0 = []
       | Threw _ =>
           updates_of l = []
           \/ (oauthStep s = authorization_code
               /\ l = [call_updateState
                         (only_validationError
                            (Some (lit
                               "You need to provide an authorization code")))])
       end.
Proof.
  by_cases s.
  all: break_run; settle_run; cbn [calls provider].
  all: try (exists []; split; [now rewrite app_nil_r | left; reflexivity]).
  all: eexists; (split; [reflexivity|]).
  all: try (left; reflexivity).
  all: try (right; split; reflexivity).
  all: match goal with
       | |- exists l0 u, ?l = _ /\ _ =>
           exists (removelast l); eexists; split; reflexivity
       end.
Qed.

Lemma update_is_the_last_call_witness :
  exists l0 u,
    calls (snd (executeStep Scenario.C Scenario.server Scenario.after_metadata
                  Scenario.w0)) = calls Scenario.w0 ++ l0 ++ [call_updateState u]
    /\ updates_of l0 = [].
Proof.
  destruct (@update_is_the_last_call Scenario.C Scenario.server
              Scenario.after_metadata Scenario.w0 _ _ eq_refl)
    as (l & Hl & l0 & u & E & U).
  exists l0, u. split; [|exact U]. rewrite <- E. exact Hl.
Defined.

(** X8. An invocation that raises has persisted nothing: no [save...]
    method of the provider was called, and the server metadata, client
    information, code verifier, tokens and redirect target of the
    provider are as before. *)
Theorem raising_invocation_persists_nothing (C : Collaborators)
    (url : jsstring) (s : AuthDebuggerState) (w : World)
    (t : thrown) (w' : World) :
  executeStep C url s w = (Threw t, w') ->
  same_persisted (provider w) (provider w')
  /\ exists l, calls w' = calls w ++ l /\ existsb is_save l = false.
Proof.
  by_cases s.
  all: break_run; settle_run; unfold same_persisted; cbn [calls provider].
  all: try (split; [repeat split
                   | exists []; split; [now rewrite app_nil_r | reflexivity]]).
  all: split; [repeat split | eexists; split; reflexivity].
Qed.

Lemma raising_invocation_persists_nothing_witness :
  raised (fst (executeStep Scenario.C Scenario.prm_server
                 Scenario.after_metadata_with_prm Scenario.w0)) = true
  /\ stored_clientInformation
       (provider (snd (executeStep Scenario.C Scenario.prm_server
                         Scenario.after_metadata_with_prm Scenario.w0))) =
     None.
Proof.
  split; [reflexivity|].
  destruct (@raising_invocation_persists_nothing Scenario.C
              Scenario.prm_server Scenario.after_metadata_with_prm
              Scenario.w0 _ _ eq_refl) as [(_ & _ & H & _) _].
  exact H.
Defined.

(** X9. Each step writes its own item of the provider and no other:
    the server metadata is written by [oauth_metadata_discovery] only,
    the client information and the registration template by
    [client_registration] only, the code verifier by
    [authorization_redirect] only, the tokens by [token_request] only,
    and the redirect target by none.  No invocation removes a persisted
    item. *)
Theorem each_step_writes_its_own_item (C : Collaborators) (url : jsstring)
    (s : AuthDebuggerState) (w : World) (r : completion unit) (w' : World) :
  executeStep C url s w = (r, w') ->
  redirectUrl (provider w') = redirectUrl (provider w)
  /\ (oauthStep s <> oauth_metadata_discovery ->
      stored_serverMetadata (provider w') = stored_serverMetadata (provider w))
  /\ (oauthStep s <> client_registration ->
      stored_clientInformation (provider w') =
        stored_clientInformation (provider w)
      /\ clientMetadata (provider w') = clientMetadata (provider w))
  /\ (oauthStep s <> authorization_redirect ->
      stored_codeVerifier (provider w') = stored_codeVerifier (provider w))
  /\ (oauthStep s <> token_request ->
      stored_tokens (provider w') = stored_tokens (provider w))
  /\ (is_set (stored_serverMetadata (provider w)) = true ->
      is_set (stored_serverMetadata (provider w')) = true)
  /\ (is_set (stored_clientInformation (provider w)) = true ->
      is_set (stored_clientInformation (provider w')) = true)
  /\ (is_set (stored_codeVerifier (provider w)) = true ->
      is_set (stored_codeVerifier (provider w')) = true)
  /\ (is_set (stored_tokens (provider w)) = true ->
      is_set (stored_tokens (provider w')) = true).
Proof.
  by_cases s.
  all: break_run; settle_run; cbn [provider].
  all: repeat split; cbn; intros; try reflexivity; try assumption;
    try congruence.
  all: match goal with
       | H : ?x = Some _ |- context [?x] => rewrite H; reflexivity
       end.
Qed.

Lemma each_step_writes_its_own_item_witness :
  let w' := snd (executeStep Scenario.C Scenario.server
                   (applyUpdate Scenario.after_metadata
                      (client_update Scenario.registered))
                   Scenario.persisted_world) in
  stored_serverMetadata (provider w') = Some Scenario.as_metadata
  /\ stored_clientInformation (provider w') = Some Scenario.registered.
Proof.
  intros w'.
  destruct (@each_step_writes_its_own_item Scenario.C Scenario.server
              (applyUpdate Scenario.after_metadata
                 (client_update Scenario.registered))
              Scenario.persisted_world _ _ eq_refl)
    as (_ & Hmd & Hci & _).
  split.
  - apply Hmd. discriminate.
  - apply Hci. discriminate.
Defined.

(** A code that [authorization_code] accepts is truthy. *)
Lemma accepted_code_truthy (code : option jsstring) :
  code_is_blank code = false -> code_truthy code = true.
Proof.
  unfold code_is_blank. destruct (code_truthy code);
    [reflexivity | discriminate].
Qed.

(** After a returning invocation, the preconditions of the next step. *)
Lemma next_preconditions (C : Collaborators) (url : jsstring)
    (s : AuthDebuggerState) (p : Provider) (w' : World) (log : list Call) :
  executeStep C url s {| provider := p; calls := [] |} = (Returned tt, w') ->
  oauthStep s <> token_request ->
  (oauthStep s = authorization_code ->
   is_set (stored_serverMetadata p) = true
   /\ is_set (stored_clientInformation p) = true) ->
  preconditions_met (oauthStep (reported s w'))
    {| state := reported s w'; serverUrl := url |}
    {| provider := provider w'; calls := log |} = true.
Proof.
  by_cases s.
  all: break_run; settle_run; intros Hne Hac; try congruence.
  all: unfold reported;
    cbn [calls provider updates_of app fold_left applyUpdate overwrite
         oauthStep oauthMetadata oauthClientInfo authServerUrl
         authorizationCode preconditions_met declared forallb truthy state
         prm_update metadata_update client_update redirect_update
         code_accepted upd_oauthStep upd_oauthMetadata upd_oauthClientInfo
         upd_authServerUrl upd_authorizationCode is_set andb
         set_codeVerifier set_clientInformation set_clientMetadata
         stored_serverMetadata stored_clientInformation] in *.
  all: try reflexivity; try assumption.
  destruct (Hac eq_refl) as [Hmd Hci].
  now rewrite (accepted_code_truthy _ Heqb), Hmd, Hci.
Qed.

(** X10. A returning invocation leaves the next step runnable: after
    any step before [authorization_code] returns, the guard of the
    following step passes on the reported Flow State; after
    [authorization_code] returns, the guard of [token_request] passes
    provided the provider holds the server metadata and the client
    information.  No step clears a field a later guard needs. *)
Theorem returning_invocation_enables_next_step (C : Collaborators)
    (url : jsstring) (s : AuthDebuggerState) (p : Provider) :
  let r := step_once C url s p in
  let s' := snd (fst r) in
  let p' := snd r in
  fst (fst r) = Returned tt ->
  oauthStep s <> token_request ->
  (oauthStep s = authorization_code ->
   is_set (stored_serverMetadata p) = true
   /\ is_set (stored_clientInformation p) = true) ->
  forall log,
    canTransition (oauthTransitions C (oauthStep s'))
      {| state := s'; serverUrl := url |}
      {| provider := p'; calls := log |} =
    (Returned true, {| provider := p'; calls := log |}).
Proof.
  unfold step_once. cbn [fst snd].
  destruct (executeStep C url s {| provider := p; calls := [] |})
    as [r w'] eqn:E.
  cbn [fst snd]. intros -> Hne Hac log.
  pose proof (@next_preconditions C url s p w' log E Hne Hac) as H.
  apply preconditions_met_iff in H. destruct H as [Hc Hall].
  rewrite guard_verdict by exact Hc.
  f_equal. f_equal. apply forallb_forall. exact Hall.
Qed.

Lemma returning_invocation_enables_next_step_witness :
  let r := step_once Scenario.C Scenario.server Scenario.after_metadata
             Scenario.fresh_provider in
  fst (fst r) = Returned tt
  /\ canTransition (oauthTransitions Scenario.C authorization_redirect)
       {| state := snd (fst r); serverUrl := Scenario.server |}
       {| provider := snd r; calls := [] |} =
     (Returned true, {| provider := snd r; calls := [] |}).
Proof.
  intros r. split; [reflexivity|].
  apply (@returning_invocation_enables_next_step Scenario.C Scenario.server
           Scenario.after_metadata Scenario.fresh_provider eq_refl).
  - discriminate.
  - discriminate.
Defined.


(** ** Scopes at registration *)

(** X11. The scope put on the registration template: the scopes of the
    protected-resource metadata win whenever they are present, even as
    an empty list (the scope is then the empty string) and whatever the
    authorization server offers; the scopes of the authorization server
    are used only when the resource declares none; with neither, the
    template is left as it was.  With no resource scopes and no
    authorization-server metadata at all, the action raises a
    [TypeError] before doing anything. *)
Theorem registration_scope_selection (C : Collaborators)
    (context : StateMachineContext) (w : World) :
  let s := state context in
  let r := client_registration_execute C context w in
  let no_resource_scopes :=
    forall m, resourceMetadata s = Some m -> prm_scopes_supported m = None in
  (forall m l,
     resourceMetadata s = Some m -> prm_scopes_supported m = Some l ->
     scope (clientMetadata (provider (snd r))) = Some (join (lit " ") l))
  /\
  (forall md l,
     no_resource_scopes ->
     oauthMetadata s = Some md -> scopes_supported md = Some l ->
     scope (clientMetadata (provider (snd r))) = Some (join (lit " ") l))
  /\
  (forall md,
     no_resource_scopes ->
     oauthMetadata s = Some md -> scopes_supported md = None ->
     clientMetadata (provider (snd r)) = clientMetadata (provider w))
  /\
  (no_resource_scopes ->
   oauthMetadata s = None ->
   r = (Threw (TypeError_null (lit "scopes_supported")), w)).
Proof.
  intros s r no_resource_scopes. subst r no_resource_scopes s.
  rewrite client_registration_execute_cases. cbv zeta.
  assert (Htemplate : forall sc mdo,
    clientMetadata
      (provider
         (snd
            match stored_clientInformation (provider w) with
            | Some i =>
                (Returned tt,
                 logged (registering sc w)
                   [call_updateState (client_update i)])
            | None =>
                match
                  registerClient C (serverUrl context)
                    mdo
                    (clientMetadata (provider (registering sc w)))
                with
                | Returned i =>
                    (Returned tt,
                     {| provider :=
                          set_clientInformation i
                            (provider (registering sc w));
                        calls := calls w ++
                          [call_registerClient (serverUrl context)
                             mdo
                             (clientMetadata (provider (registering sc w)));
                           call_saveClientInformation i;
                           call_updateState (client_update i)] |})
                | Threw t =>
                    (Threw t,
                     logged (registering sc w)
                       [call_registerClient (serverUrl context)
                          mdo
                          (clientMetadata (provider (registering sc w)))])
                end
            end)) = with_scopes sc (clientMetadata (provider w))).
  { intros sc mdo. rewrite <- registering_template.
    destruct (stored_clientInformation (provider w)); [reflexivity|].
    destruct (registerClient C _ _ _); reflexivity. }
  assert (Hnone : (forall m, resourceMetadata (state context) = Some m ->
                             prm_scopes_supported m = None) ->
                  scopesSupported_of (state context) =
                    match oauthMetadata (state context) with
                    | Some metadata => Returned (scopes_supported metadata)
                    | None => Threw (TypeError_null (lit "scopes_supported"))
                    end).
  { intros H. unfold scopesSupported_of.
    destruct (resourceMetadata (state context)) as [m|]; [|reflexivity].
    specialize (H m eq_refl). destruct m as [rs au sc]. cbn in H.
    now rewrite H. }
  split; [|split; [|split]].
  - intros m l Hm Hl.
    assert (E : scopesSupported_of (state context) = Returned (Some l)).
    { unfold scopesSupported_of. rewrite Hm.
      destruct m as [rs au sc]. cbn in Hl |- *. now rewrite Hl. }
    rewrite E, Htemplate. reflexivity.
  - intros md l Hn Hmd Hl. rewrite (Hnone Hn), Hmd, Hl.
    rewrite Htemplate. reflexivity.
  - intros md Hn Hmd Hl. rewrite (Hnone Hn), Hmd, Hl.
    rewrite Htemplate. reflexivity.
  - intros Hn Hmd. rewrite (Hnone Hn), Hmd. reflexivity.
Qed.

Lemma registration_scope_selection_witness :
  (* the resource declares an empty list: the scope is the empty string,
     though the authorization server offers [mcp] *)
  let silent := {| prm_resource := Scenario.prm_server;
                   prm_authorization_servers := None;
                   prm_scopes_supported := Some [] |} in
  let s := applyUpdate Scenario.after_metadata
             (prm_update (Some silent) None None
                {| href := lit "https://mcp.example/" |}) in
  let s' := applyUpdate s (metadata_update Scenario.as_metadata) in
  scopes_supported Scenario.as_metadata = Some [lit "mcp"]
  /\ scope (clientMetadata
              (provider
                 (snd (client_registration_execute Scenario.C
                         {| state := s'; serverUrl := Scenario.server |}
                         Scenario.w0)))) = Some [].
Proof.
  intros silent s s'. split; [reflexivity|].
  apply (@registration_scope_selection Scenario.C
           {| state := s'; serverUrl := Scenario.server |} Scenario.w0)
    with (m := silent) (l := []); reflexivity.
Defined.

(** ** What an invocation leaves alone in the Flow State *)

(** X12. Each step writes only its own fields of the Flow State: after
    one invocation at a step, the fields of every other step are as they
    were.  The authorization code is written by no step: it only ever
    comes from the caller. *)
Theorem each_step_writes_its_own_fields (C : Collaborators) (url : jsstring)
    (s : AuthDebuggerState) (p : Provider) :
  let s' := snd (fst (step_once C url s p)) in
  authorizationCode s' = authorizationCode s
  /\ (oauthStep s <> prm_discovery ->
      resourceMetadata s' = resourceMetadata s
      /\ resourceMetadataError s' = resourceMetadataError s
      /\ resource s' = resource s
      /\ authServerUrl s' = authServerUrl s)
  /\ (oauthStep s <> oauth_metadata_discovery ->
      oauthMetadata s' = oauthMetadata s)
  /\ (oauthStep s <> client_registration ->
      oauthClientInfo s' = oauthClientInfo s)
  /\ (oauthStep s <> authorization_redirect ->
      authorizationUrl s' = authorizationUrl s)
  /\ (oauthStep s <> authorization_code ->
      validationError s' = validationError s)
  /\ (oauthStep s <> token_request ->
      oauthTokens s' = oauthTokens s).
Proof.
  unfold step_once, reported. cbn [fst snd].
  destruct (executeStep C url s {| provider := p; calls := [] |})
    as [r w'] eqn:E.
  revert E. by_cases s.
  all: break_run; settle_run; cbn [snd calls app updates_of fold_left].
  all: repeat split; intros; try reflexivity; try congruence.
Qed.

Lemma each_step_writes_its_own_fields_witness :
  let s := applyUpdate Scenario.after_metadata
             (upd_authorizationCode_only (lit "early")) in
  let s' := snd (fst (step_once Scenario.C Scenario.server s
                        Scenario.fresh_provider)) in
  oauthStep s' = authorization_redirect
  /\ authorizationCode s' = Some (lit "early")
  /\ oauthMetadata s' = Some Scenario.as_metadata.
Proof.
  intros s s'. split; [reflexivity|].
  destruct (each_step_writes_its_own_fields Scenario.C Scenario.server s
              Scenario.fresh_provider) as (Hcode & _ & Hmd & _).
  split; [exact Hcode|]. apply Hmd. discriminate.
Defined.

(** ** The flow runs to completion *)

(** Refutes a run in which a call that the collaborators answer threw. *)
Ltac refute_throw :=
  repeat match goal with
         | H : _ /\ _ |- _ => destruct H
         | H : exists _, _ |- _ => destruct H
         end;
  first
    [ congruence
    | match goal with
      | A : forall first, Some ?j = Some first -> _, E : _ = Threw _ |- _ =>
          discriminate (eq_trans (eq_sym (f_equal raised E)) (A j eq_refl))
      | A : None = None -> forall sc, Returned ?x = Returned sc -> _,
        E : _ = Threw _ |- _ =>
          discriminate
            (eq_trans (eq_sym (f_equal raised E)) (A eq_refl x eq_refl))
      | E : _ = Threw _, R : raised _ = false |- _ =>
          discriminate (eq_trans (eq_sym (f_equal raised E)) R)
      | H : scopesSupported_of ?st = Threw _, P : _ = true |- _ =>
          let M := fresh "M" in
          destruct (oauthMetadata st) as [md|] eqn:M;
          [ destruct (@scopesSupported_of_returns st md M) as [sc X];
            rewrite H in X; discriminate X
          | cbn in P; rewrite M in P; discriminate P ]
      end
    | repeat match goal with
             | H : Returned _ = Returned _ |- _ => injection H as H; subst
             end;
      match goal with
      | E : _ = Threw _, R : raised _ = false |- _ =>
          discriminate (eq_trans (eq_sym (f_equal raised E)) R)
      end ].

(** One invocation from a ready state, answered by the collaborators. *)
Lemma answered_invocation (C : Collaborators) (url : jsstring)
    (s : AuthDebuggerState) (p : Provider) (r : completion unit)
    (w' : World) :
  ready url s p ->
  answers C url s p ->
  executeStep C url s {| provider := p; calls := [] |} = (r, w') ->
  r = Returned tt
  /\ oauthStep (reported s w') = next_step (oauthStep s)
  /\ (oauthStep s <> token_request ->
      ready url (reported s w') (provider w'))
  /\ (oauthStep s = token_request ->
      exists tokens,
        oauthTokens (reported s w') = Some tokens
        /\ stored_tokens (provider w') = Some tokens).
Proof.
  intros (Hpre & Hcode & Hmd & Hci). unfold answers.
  revert Hpre Hmd Hci.
  by_cases s.
  all: cbn [provider calls].
  all: break_run; intros Hpre Hmd Hci A; settle_run; try discriminate Hpre;
    try discriminate Hcode.
  all: try refute_throw.
  all: unfold ready, reported;
    cbn [calls provider updates_of app fold_left applyUpdate overwrite
         oauthStep oauthMetadata oauthClientInfo authServerUrl
         authorizationCode oauthTokens next_step step_index Nat.leb
         preconditions_met declared forallb truthy state
         prm_update metadata_update client_update redirect_update
         code_accepted tokens_update upd_oauthStep upd_oauthMetadata
         upd_oauthClientInfo upd_authServerUrl upd_authorizationCode
         upd_oauthTokens is_set andb
         set_codeVerifier set_clientInformation set_clientMetadata
         set_serverMetadata set_tokens
         stored_serverMetadata stored_clientInformation stored_tokens]
      in *.
  all: (split; [reflexivity|]); (split; [reflexivity|]); split;
    try (intros Hd; discriminate Hd); try (intros Hd; congruence).
  all: try (intros _; repeat split; intros; try assumption;
            try reflexivity; try (apply Hmd; reflexivity);
            try (apply Hci; reflexivity)).
  all: try match goal with H : false = true |- _ => discriminate H end.
  all: try match goal with
           | H : ?x = Some _ |- context [?x] => rewrite H; reflexivity
           end.
  all: try (eexists; split; reflexivity).
  all: match goal with
       | H : code_is_blank _ = false |- _ =>
           rewrite (accepted_code_truthy _ H), (Hmd eq_refl), (Hci eq_refl);
           reflexivity
       end.
Qed.

(** X13. If the collaborators answer the calls made on the way (each
    call after the tolerated metadata fetch returns, and the
    authorization server has metadata), a caller that starts at
    [prm_discovery] with a non-blank authorization code at hand reaches
    [complete] in six invocations, none of which raises: the tokens are
    then in the Flow State and in the provider, and the seventh
    invocation is a guard violation. *)
Theorem answered_flow_completes (C : Collaborators) (url : jsstring)
    (s : AuthDebuggerState) (p : Provider) :
  oauthStep s = prm_discovery ->
  ~ blank (authorizationCode s) ->
  answers_n C url 6 s p ->
  exists s' p' tokens,
    step_n C url 6 s p = (Returned tt, s', p')
    /\ oauthStep s' = complete
    /\ oauthTokens s' = Some tokens
    /\ stored_tokens p' = Some tokens
    /\ fst (fst (step_once C url s' p')) = Threw (guard_violation complete).
Proof.
  intros Hstep Hcode Hans.
  apply code_is_blank_false_iff in Hcode.
  assert (R0 : ready url s p).
  { unfold ready. rewrite Hstep. repeat split; try assumption;
      cbn; discriminate. }
  assert (Hnext : forall n s0 p0,
            ready url s0 p0 ->
            answers_n C url (S n) s0 p0 ->
            exists s1 p1,
              step_once C url s0 p0 = (Returned tt, s1, p1)
              /\ answers_n C url n s1 p1
              /\ oauthStep s1 = next_step (oauthStep s0)
              /\ (oauthStep s0 <> token_request -> ready url s1 p1)
              /\ (oauthStep s0 = token_request ->
                  exists tokens,
                    oauthTokens s1 = Some tokens
                    /\ stored_tokens p1 = Some tokens)).
  { intros n s0 p0 R [A An]. revert An. unfold step_once.
    destruct (executeStep C url s0 {| provider := p0; calls := [] |})
      as [r w'] eqn:E.
    destruct (@answered_invocation C url s0 p0 r w' R A E)
      as (-> & H1 & H2 & H3).
    cbn [fst snd]. intros An.
    exists (reported s0 w'), (provider w').
    split; [reflexivity|]. split; [exact An|].
    split; [exact H1|]. split; [exact H2 | exact H3]. }
  destruct (Hnext _ s p R0 Hans) as (s1 & p1 & E1 & A1 & S1 & R1 & _).
  rewrite Hstep in S1, R1. specialize (R1 ltac:(discriminate)).
  destruct (Hnext _ s1 p1 R1 A1) as (s2 & p2 & E2 & A2 & S2 & R2 & _).
  rewrite S1 in S2, R2. specialize (R2 ltac:(discriminate)).
  destruct (Hnext _ s2 p2 R2 A2) as (s3 & p3 & E3 & A3 & S3 & R3 & _).
  rewrite S2 in S3, R3. specialize (R3 ltac:(discriminate)).
  destruct (Hnext _ s3 p3 R3 A3) as (s4 & p4 & E4 & A4 & S4 & R4 & _).
  rewrite S3 in S4, R4. specialize (R4 ltac:(discriminate)).
  destruct (Hnext _ s4 p4 R4 A4) as (s5 & p5 & E5 & A5 & S5 & R5 & _).
  rewrite S4 in S5, R5. specialize (R5 ltac:(discriminate)).
  destruct (Hnext _ s5 p5 R5 A5) as (s6 & p6 & E6 & _ & S6 & _ & T6).
  rewrite S5 in S6, T6. destruct (T6 eq_refl) as (tokens & Ht & Hp).
  exists s6, p6, tokens.
  cbn [step_n]. rewrite E1, E2, E3, E4, E5, E6.
  repeat split; try assumption.
  unfold step_once. cbn [fst].
  rewrite executeStep_blocked; rewrite S6; reflexivity.
Qed.

(** The stand-ins of the scenario answer its six invocations. *)
Lemma scenario_answers :
  answers_n Scenario.C Scenario.server 6
    (applyUpdate Scenario.initial (upd_authorizationCode_only (lit "xyz789")))
    Scenario.fresh_provider.
Proof.
  cbn [answers_n]. unfold answers.
  repeat match goal with
         | |- _ /\ _ => split
         | |- True => exact I
         end.
  all: vm_compute.
  all: repeat match goal with
              | |- _ /\ _ => split
              | |- exists _, _ => eexists
              end;
    intros; try reflexivity; try discriminate.
Defined.

Lemma answered_flow_completes_witness :
  let s := applyUpdate Scenario.initial
             (upd_authorizationCode_only (lit "xyz789")) in
  oauthStep s = prm_discovery
  /\ ~ blank (authorizationCode s)
  /\ exists s' p' tokens,
       step_n Scenario.C Scenario.server 6 s Scenario.fresh_provider =
         (Returned tt, s', p')
       /\ oauthStep s' = complete
       /\ oauthTokens s' = Some tokens
       /\ stored_tokens p' = Some tokens
       /\ fst (fst (step_once Scenario.C Scenario.server s' p')) =
            Threw (guard_violation complete).
Proof.
  intros s.
  assert (B : ~ blank (authorizationCode s))
    by (apply code_is_blank_false_iff; reflexivity).
  split; [reflexivity|]. split; [exact B|].
  apply (@answered_flow_completes Scenario.C Scenario.server s
           Scenario.fresh_provider eq_refl B scenario_answers).
Defined.

(** ** Re-entering [authorization_code] *)

(** X14. The step [authorization_code] can be re-entered: an attempt
    with a blank code raises, leaves the provider alone and puts the
    validation message in the Flow State; repeating it changes nothing
    more; and once the caller has supplied a code that is not blank, the
    next invocation returns, clears the message left by the failed
    attempt and moves to [token_request]. *)
Theorem blank_attempt_then_retry (C : Collaborators) (url : jsstring)
    (s : AuthDebuggerState) (p : Provider) (code : jsstring) :
  oauthStep s = authorization_code ->
  blank (authorizationCode s) ->
  ~ blank (Some code) ->
  let failure :=
    Threw (ThrownError (new_Error (lit "Authorization code required"))) in
  let s1 := applyUpdate s
              (only_validationError
                 (Some (lit "You need to provide an authorization code"))) in
  let s2 := applyUpdate s1 (upd_authorizationCode_only code) in
  step_once C url s p = (failure, s1, p)
  /\ step_once C url s1 p = (failure, s1, p)
  /\ validationError s1 =
       Some (lit "You need to provide an authorization code")
  /\ step_once C url s2 p = (Returned tt, applyUpdate s2 code_accepted, p)
  /\ validationError (applyUpdate s2 code_accepted) = None
  /\ oauthStep (applyUpdate s2 code_accepted) = token_request
  /\ authorizationCode (applyUpdate s2 code_accepted) = Some code.
Proof.
  intros Hstep Hblank Hcode failure s1 s2.
  apply code_is_blank_iff in Hblank.
  apply code_is_blank_false_iff in Hcode.
  assert (Hrun : forall s0,
            oauthStep s0 = authorization_code ->
            executeStep C url s0 {| provider := p; calls := [] |} =
              if code_is_blank (authorizationCode s0)
              then (failure,
                    {| provider := p;
                       calls :=
                         [call_updateState
                            (only_validationError
                               (Some (lit
                                  "You need to provide an authorization code")))]
                    |})
              else (Returned tt,
                    {| provider := p;
                       calls := [call_updateState code_accepted] |})).
  { intros s0 H0. rewrite executeStep_by_guard, H0.
    cbn [preconditions_met declared forallb oauthTransitions execute].
    rewrite authorization_code_execute_cases. reflexivity. }
  unfold step_once.
  rewrite !Hrun by (subst s1 s2; cbn; assumption).
  replace (authorizationCode s1) with (authorizationCode s) by reflexivity.
  replace (authorizationCode s2) with (Some code) by reflexivity.
  rewrite Hblank, Hcode. cbn [fst snd provider].
  repeat split.
Qed.

Lemma blank_attempt_then_retry_witness :
  let s := Scenario.with_code [32]%N in
  let s1 := applyUpdate s
              (only_validationError
                 (Some (lit "You need to provide an authorization code"))) in
  let s2 := applyUpdate s1 (upd_authorizationCode_only (lit "xyz789")) in
  blank (authorizationCode s)
  /\ ~ blank (Some (lit "xyz789"))
  /\ step_once Scenario.C Scenario.server s2 (provider Scenario.persisted_world)
     = (Returned tt, applyUpdate s2 code_accepted,
        (provider Scenario.persisted_world)).
Proof.
  intros s s1 s2.
  assert (B1 : blank (authorizationCode s)) by (repeat constructor).
  assert (B2 : ~ blank (Some (lit "xyz789")))
    by (apply code_is_blank_false_iff; reflexivity).
  split; [exact B1|]. split; [exact B2|].
  apply (@blank_attempt_then_retry Scenario.C Scenario.server s
           (provider Scenario.persisted_world) (lit "xyz789")
           eq_refl B1 B2).
Defined.

(** ** What one step hands to a later one *)

(** X15. What a step reports is what it persisted: after a returning
    invocation of [oauth_metadata_discovery] the metadata of the Flow
    State is the one in the provider, after [client_registration] the
    client information of the Flow State is the one in the provider
    (registered or static), and after [token_request] so are the
    tokens. *)
Theorem reported_is_persisted (C : Collaborators) (url : jsstring)
    (s : AuthDebuggerState) (p : Provider) :
  let r := step_once C url s p in
  let s' := snd (fst r) in
  let p' := snd r in
  fst (fst r) = Returned tt ->
  (oauthStep s = oauth_metadata_discovery ->
   is_set (oauthMetadata s') = true
   /\ oauthMetadata s' = stored_serverMetadata p')
  /\ (oauthStep s = client_registration ->
      is_set (oauthClientInfo s') = true
      /\ oauthClientInfo s' = stored_clientInformation p')
  /\ (oauthStep s = token_request ->
      is_set (oauthTokens s') = true
      /\ oauthTokens s' = stored_tokens p').
Proof.
  unfold step_once, reported. cbn [fst snd].
  destruct (executeStep C url s {| provider := p; calls := [] |})
    as [r w'] eqn:E.
  revert E. by_cases s.
  all: break_run; settle_run; cbn [fst snd]; intros Hr;
    try discriminate Hr.
  all: cbn [calls provider app updates_of fold_left].
  all: (split; [|split]); intros Hd; try discriminate Hd; try congruence.
  all: cbn; try (split; reflexivity).
  all: split; [reflexivity | symmetry; assumption].
Qed.

Lemma reported_is_persisted_witness :
  let r := step_once Scenario.C Scenario.server Scenario.after_metadata
             (provider Scenario.static_world) in
  fst (fst r) = Returned tt
  /\ oauthClientInfo (snd (fst r)) = stored_clientInformation (snd r)
  /\ oauthClientInfo (snd (fst r)) = Some Scenario.registered.
Proof.
  intros r. split; [reflexivity|].
  destruct (@reported_is_persisted Scenario.C Scenario.server
              Scenario.after_metadata (provider Scenario.static_world)
              eq_refl) as (_ & H & _).
  split; [apply H; reflexivity | reflexivity].
Defined.

(** X16. The code verifier makes the round trip through the provider:
    the verifier that [startAuthorization] produced at
    [authorization_redirect] is the one [exchangeAuthorization] receives
    at [token_request], in a later invocation that only shares the
    provider, and both calls are given the same redirect target. *)
Theorem code_verifier_round_trip (C : Collaborators) (url : jsstring)
    (s s5 : AuthDebuggerState) (p : Provider) :
  let r := executeStep C url s {| provider := p; calls := [] |} in
  let p1 := provider (snd r) in
  let r5 := executeStep C url s5 {| provider := p1; calls := [] |} in
  oauthStep s = authorization_redirect ->
  fst r = Returned tt ->
  oauthStep s5 = token_request ->
  code_truthy (authorizationCode s5) = true ->
  is_set (stored_serverMetadata p1) = true ->
  is_set (stored_clientInformation p1) = true ->
  raised (resource_as_URL C (resource s5)) = false ->
  exists o1 au ve o5 rest,
    startAuthorization C url o1 = Returned (au, ve)
    /\ In (call_startAuthorization url o1) (calls (snd r))
    /\ calls (snd r5) = call_exchangeAuthorization url o5 :: rest
    /\ ex_codeVerifier o5 = Some ve
    /\ ex_redirectUri o5 = sa_redirectUrl o1.
Proof.
  intros r p1 r5 Hstep Hr H5 Hcode Hmd Hci Hres. subst r5.
  rewrite executeStep_token_request by assumption.
  rewrite token_request_execute_cases. cbn [state serverUrl].
  destruct (resource_as_URL C (resource s5)) as [res|]; [|discriminate].
  subst p1 r. revert Hr Hmd Hci.
  rewrite executeStep_by_guard, Hstep.
  destruct (preconditions_met authorization_redirect _ _);
    [|discriminate].
  cbn [oauthTransitions execute].
  rewrite authorization_redirect_execute_cases. cbv zeta.
  cbn [state serverUrl provider calls].
  destruct (discoverScopes C url (resourceMetadata s)) as [sc|];
    [|discriminate].
  destruct (startAuthorization C url
              (redirect_options C s p sc)) as [[au ve]|] eqn:S;
    [|discriminate].
  intros _ Hmd Hci. cbn [snd provider calls app].
  exists (redirect_options C s p sc), au, ve.
  destruct (exchangeAuthorization C url _) eqn:X.
  - eexists. eexists. split; [exact S|]. split; [right; left; reflexivity|].
    split; [reflexivity|]. split; reflexivity.
  - eexists. eexists. split; [exact S|]. split; [right; left; reflexivity|].
    split; [reflexivity|]. split; reflexivity.
Qed.

Lemma code_verifier_round_trip_witness :
  let s := applyUpdate Scenario.after_metadata
             (client_update Scenario.registered) in
  let s5 := applyUpdate (Scenario.with_code (lit "xyz789")) code_accepted in
  let p := set_clientInformation Scenario.registered
             (set_serverMetadata Scenario.as_metadata
                Scenario.fresh_provider) in
  let p1 := provider (snd (executeStep Scenario.C Scenario.server s
                             {| provider := p; calls := [] |})) in
  exists o5 rest,
    calls (snd (executeStep Scenario.C Scenario.server s5
                  {| provider := p1; calls := [] |})) =
      call_exchangeAuthorization Scenario.server o5 :: rest
    /\ ex_codeVerifier o5 = Some (lit "verifier").
Proof.
  intros s s5 p p1.
  destruct (@code_verifier_round_trip Scenario.C Scenario.server s s5 p
              eq_refl eq_refl eq_refl eq_refl eq_refl eq_refl eq_refl)
    as (o1 & au & ve & o5 & rest & S & _ & E & V & _).
  exists o5, rest. split; [exact E|].
  rewrite V. cbn in S. injection S as _ <-. reflexivity.
Defined.

(** X17. The authorization server chosen by [prm_discovery] is the one
    the next invocation asks for its metadata: after a returning
    invocation at [prm_discovery], [authServerUrl] is set, and the first
    call of the following invocation is
    [discoverAuthorizationServerMetadata] on that URL. *)
Theorem discovered_server_is_queried (C : Collaborators) (url : jsstring)
    (s : AuthDebuggerState) (p : Provider) :
  let r := step_once C url s p in
  let s1 := snd (fst r) in
  let p1 := snd r in
  oauthStep s = prm_discovery ->
  fst (fst r) = Returned tt ->
  exists auth rest,
    authServerUrl s1 = Some auth
    /\ calls (snd (executeStep C url s1 {| provider := p1; calls := [] |})) =
         call_discoverAuthorizationServerMetadata (Some auth) :: rest.
Proof.
  intros r s1 p1 Hstep Hr. subst s1 p1 r. revert Hr.
  unfold step_once, reported. cbn [fst snd].
  rewrite executeStep_prm_discovery by exact Hstep.
  rewrite prm_discovery_execute_cases. cbv zeta. cbn [serverUrl provider].
  assert (Hnext : forall md err res auth log,
    exists rest,
      calls
        (snd
           (executeStep C url
              (fold_left applyUpdate
                 (updates_of
                    ([] ++ log ++
                     [call_updateState (prm_update md err res auth)])) s)
              {| provider := p; calls := [] |})) =
      call_discoverAuthorizationServerMetadata (Some auth) :: rest).
  { intros md err res auth log.
    intros. rewrite app_nil_l, updates_of_app, fold_left_app.
    cbn [updates_of fold_left].
    rewrite executeStep_by_guard.
    cbn [applyUpdate oauthStep prm_update upd_oauthStep overwrite
         preconditions_met declared forallb truthy state authServerUrl
         upd_authServerUrl is_set andb oauthTransitions execute].
    rewrite oauth_metadata_discovery_execute_cases.
    cbn [state applyUpdate authServerUrl prm_update upd_authServerUrl
         overwrite].
    destruct (discoverAuthorizationServerMetadata C _) as [[raw|]|];
      [|eexists; reflexivity|eexists; reflexivity].
    destruct (OAuthMetadataSchema_parseAsync C raw);
      eexists; reflexivity. }
  destruct (selectResourceURL C url p _) as [res|]; [|discriminate].
  destruct (URL_new C (lit "/") (Some url)) as [root|]; [|discriminate].
  destruct (first_authorization_server _) as [first|].
  - destruct (URL_new C first None) as [auth|]; [|discriminate].
    intros _. cbn [snd logged calls provider].
    exists auth.
    destruct (Hnext (fst (fetched_metadata C url))
                (snd (fetched_metadata C url)) res auth
                [call_discoverOAuthProtectedResourceMetadata url;
                 call_selectResourceURL url (fst (fetched_metadata C url))])
      as [rest Hrest].
    exists rest. split; [reflexivity | exact Hrest].
  - intros _. cbn [snd logged calls provider].
    exists root.
    destruct (Hnext (fst (fetched_metadata C url))
                (snd (fetched_metadata C url)) res root
                [call_discoverOAuthProtectedResourceMetadata url;
                 call_selectResourceURL url (fst (fetched_metadata C url))])
      as [rest Hrest].
    exists rest. split; [reflexivity | exact Hrest].
Qed.

Lemma discovered_server_is_queried_witness :
  let r := step_once Scenario.C Scenario.prm_server Scenario.initial
             Scenario.fresh_provider in
  exists rest,
    calls (snd (executeStep Scenario.C Scenario.prm_server (snd (fst r))
                  {| provider := snd r; calls := [] |})) =
      call_discoverAuthorizationServerMetadata
        (Some {| href := lit "https://auth.example/" |}) :: rest.
Proof.
  intros r.
  destruct (@discovered_server_is_queried Scenario.C Scenario.prm_server
              Scenario.initial Scenario.fresh_provider eq_refl eq_refl)
    as (auth & rest & A & E).
  exists rest. cbn in A. injection A as <-. exact E.
Defined.
